(** * Contact-form backend (src/server.js): validator, submission handler,
    notifier.

    A shallow embedding of the contact-submission path of the portfolio
    server.  JavaScript strings are sequences of UTF-16 code units, the
    regular expression of the validator is a term of a small regex
    syntax run by a derivative matcher, and the asynchronous handler is
    a program of a state-and-exception monad whose state records the
    calls made to the collaborators (datastore, mail relay, console) and
    the Express response object. *)

From Stdlib Require Import String Ascii.
From Stdlib Require Import List NArith Arith Bool Lia.
Import ListNotations.

(* ================================================================== *)
(** ** JavaScript strings *)

Module JsString.

(** A UTF-16 code unit, and a string as the sequence of its code units:
    [s.length] is the length of the list. *)
Definition jschar := N.
Definition jsstr := list jschar.

(** An ASCII literal of the source as a JavaScript string. *)
Fixpoint js (s : string) : jsstr :=
  match s with
  | EmptyString => []
  | String a rest => N_of_ascii a :: js rest
  end.

Definition AT : jschar := 64%N.
Definition DOT : jschar := 46%N.
Definition SP : jschar := 32%N.

(** The class [\s] of a regular expression, which is also what
    [String.prototype.trim] strips: WhiteSpace and LineTerminator of
    ECMAScript (TAB, LF, VT, FF, CR, SP, NBSP, the Zs category, LS, PS,
    ZWNBSP). *)
Definition is_space (c : jschar) : bool :=
  ((9 <=? c) && (c <=? 13) || (c =? 32) || (c =? 160) || (c =? 5760)
   || (8192 <=? c) && (c <=? 8202) || (c =? 8232) || (c =? 8233)
   || (c =? 8239) || (c =? 8287) || (c =? 12288) || (c =? 65279))%N.

Fixpoint trimStart (s : jsstr) : jsstr :=
  match s with
  | [] => []
  | c :: rest => if is_space c then trimStart rest else s
  end.

Definition trimEnd (s : jsstr) : jsstr := rev (trimStart (rev s)).

(** [s.trim()] *)
Definition trim (s : jsstr) : jsstr := trimEnd (trimStart s).

(** A value read from a property that may be missing: [None] is
    [undefined], [Some s] a string.  (A JSON body or the environment of
    a process holds strings there in all that follows; numbers, arrays
    and objects in a body are outside this model.) *)
Definition Field := option jsstr.

(** [!v]: [undefined] and the empty string are falsy. *)
Definition falsy (v : Field) : bool :=
  match v with
  | None => true
  | Some [] => true
  | Some (_ :: _) => false
  end.

(** [a || b] on such values. *)
Definition js_or (a b : Field) : Field := if falsy a then b else a.

(** [a === 'lit'] *)
Definition strict_eq (a : Field) (lit : jsstr) : bool :=
  match a with
  | None => false
  | Some s => if list_eq_dec N.eq_dec s lit then true else false
  end.

End JsString.
Export JsString.

(* ================================================================== *)
(** ** Regular expressions *)

Module Regex.

Inductive regex : Type :=
| RNone : regex
| REps : regex
| RClass : (jschar -> bool) -> regex
| RSeq : regex -> regex -> regex
| RAlt : regex -> regex -> regex
| RStar : regex -> regex.

(** [r+] *)
Definition RPlus (r : regex) : regex := RSeq r (RStar r).
(** a literal character *)
Definition RChar (c : jschar) : regex := RClass (N.eqb c).

Fixpoint nullable (r : regex) : bool :=
  match r with
  | RNone => false
  | REps => true
  | RClass _ => false
  | RSeq a b => nullable a && nullable b
  | RAlt a b => nullable a || nullable b
  | RStar _ => true
  end.

Fixpoint deriv (c : jschar) (r : regex) : regex :=
  match r with
  | RNone => RNone
  | REps => RNone
  | RClass p => if p c then REps else RNone
  | RSeq a b =>
      if nullable a then RAlt (RSeq (deriv c a) b) (deriv c b)
      else RSeq (deriv c a) b
  | RAlt a b => RAlt (deriv c a) (deriv c b)
  | RStar a => RSeq (deriv c a) (RStar a)
  end.

(** [r.test(s)] for a pattern anchored by [^] and [$] (no flags): the
    whole of [s] is in the language of [r]. *)
Fixpoint test (r : regex) (s : jsstr) : bool :=
  match s with
  | [] => nullable r
  | c :: rest => test (deriv c r) rest
  end.

(** The language of a regex. *)
Inductive matches : regex -> jsstr -> Prop :=
| MEps : matches REps []
| MClass p c : p c = true -> matches (RClass p) [c]
| MSeq a b s t : matches a s -> matches b t -> matches (RSeq a b) (s ++ t)
| MAltL a b s : matches a s -> matches (RAlt a b) s
| MAltR a b s : matches b s -> matches (RAlt a b) s
| MStarNil a : matches (RStar a) []
| MStarApp a s t :
    matches a s -> matches (RStar a) t -> matches (RStar a) (s ++ t).

End Regex.
Export Regex.

(* ================================================================== *)
(** ** The validator (src/server.js, validateContactForm) *)

(** [req.body] after JSON parsing, restricted to the four properties the
    server reads. *)
Record Body : Type := mkBody {
  b_name : Field;
  b_email : Field;
  b_subject : Field;
  b_message : Field
}.

(** JSON bodies the server answers with. A property whose value is
    [undefined] is left out by [res.json]: [None]. *)
Inductive Json : Type :=
| ErrorBody (error details : jsstr) (debug : option jsstr)
| SuccessBody (message : jsstr) (id : jsstr) (timestamp : jsstr)
| HealthBody (status timestamp : jsstr) (uptime : N)
    (database environment supabase_url supabase_key : jsstr)
| HealthErrorBody (status timestamp : jsstr) (uptime : N)
    (database error : jsstr).

Record Response : Type := mkResponse {
  status : N;
  json : Json
}.

(** [[^\s@]] *)
Definition notSpaceAt (c : jschar) : bool :=
  negb (is_space c) && negb (c =? AT)%N.

(** [/^[^\s@]+@[^\s@]+\.[^\s@]+$/] *)
Definition emailRegex : regex :=
  RSeq (RPlus (RClass notSpaceAt))
    (RSeq (RChar AT)
       (RSeq (RPlus (RClass notSpaceAt))
          (RSeq (RChar DOT) (RPlus (RClass notSpaceAt))))).

(** The string behind a field that passed the presence check. *)
Definition str (v : Field) : jsstr :=
  match v with
  | Some s => s
  | None => []
  end.

(** The middleware either answers 400 with a JSON body ([Some]) or calls
    [next()] ([None]). *)
Definition validateContactForm (body : Body) : option Response :=
  let name := b_name body in
  let email := b_email body in
  let subject := b_subject body in
  let message := b_message body in
  if falsy name || falsy email || falsy subject || falsy message then
    Some (mkResponse 400
            (ErrorBody (js "All fields are required")
               (js "Please fill in all required fields: name, email, subject, and message.")
               None))
  else if negb (test emailRegex (str email)) then
    Some (mkResponse 400
            (ErrorBody (js "Invalid email format")
               (js "Please provide a valid email address.")
               None))
  else if (length (str name) <? 2) || (100 <? length (str name)) then
    Some (mkResponse 400
            (ErrorBody (js "Invalid name length")
               (js "Name must be between 2 and 100 characters.")
               None))
  else if (length (str subject) <? 5) || (200 <? length (str subject)) then
    Some (mkResponse 400
            (ErrorBody (js "Invalid subject length")
               (js "Subject must be between 5 and 200 characters.")
               None))
  else if (length (str message) <? 10) || (2000 <? length (str message)) then
    Some (mkResponse 400
            (ErrorBody (js "Invalid message length")
               (js "Message must be between 10 and 2000 characters.")
               None))
  else None.

(* ================================================================== *)
(** ** Collaborators and the effects of a request *)

(** A JavaScript error object. *)
Record Exn : Type := mkExn {
  exn_name : jsstr;
  exn_message : jsstr
}.

Definition TypeError (message : string) : Exn :=
  mkExn (js "TypeError") (js message).

(** The record handed to [insert] (table contact_messages, minus the
    columns the datastore fills in). *)
Record ContactMessage : Type := mkContactMessage {
  name : jsstr;
  email : jsstr;
  subject : jsstr;
  message : jsstr;
  ip_address : Field;
  created_at : jsstr;
  msg_status : jsstr
}.

(** A row as [select()] returns it: the datastore-generated id and the
    stored columns. *)
Record Row : Type := mkRow {
  id : jsstr;
  columns : ContactMessage
}.

(** What [await supabase.from(..).insert(..).select()] gives: the pair
    [{ data, error }], or an exception. *)
Inductive InsertOutcome : Type :=
| Returned (data : option (list Row)) (error : option Exn)
| InsertThrew (e : Exn).

(** The two HTML bodies, as the template and the values interpolated
    into it; the fixed markup between the holes is not spelled out. *)
Inductive Html : Type :=
| AdminHtml (name email subject timestamp : jsstr) (clientIp : Field)
    (message : jsstr)
| AutoReplyHtml (name subject timestamp : jsstr).

Record MailOptions : Type := mkMail {
  from : Field;
  to : Field;
  mail_subject : jsstr;
  html : Html
}.

Inductive Dispatch : Type := AdminMail | UserMail.

Definition Dispatch_eq_dec (a b : Dispatch) : {a = b} + {a <> b}.
Proof. decide equality. Defined.

(** How the promise of one [sendMail] settles. *)
Inductive Settlement : Type :=
| Fulfilled
| Rejected (reason : Exn).

(** One run of the mail relay on the two messages: how each dispatch
    settles and which settles first.  (Both do settle: nodemailer bounds
    connection, greeting and socket waits by default.) *)
Record MailRun : Type := mkMailRun {
  first : Dispatch;
  admin_result : Settlement;
  user_result : Settlement
}.

Definition settlements (r : MailRun) : list (Dispatch * Settlement) :=
  match first r with
  | AdminMail => [(AdminMail, admin_result r); (UserMail, user_result r)]
  | UserMail => [(UserMail, user_result r); (AdminMail, admin_result r)]
  end.

(** What the outside world contributes to one request. *)
Record Oracle : Type := mkOracle {
  now : jsstr;                      (* new Date().toISOString() *)
  insert_outcome : InsertOutcome;
  mail_run : MailRun
}.

(** [process.env] *)
Record Env : Type := mkEnv {
  NODE_ENV : Field;
  SMTP_FROM : Field;
  ADMIN_EMAIL : Field;
  SUPABASE_URL : Field;
  SUPABASE_ANON_KEY : Field
}.

Record Request : Type := mkRequest {
  body : Body;
  ip : Field;                       (* req.ip *)
  remoteAddress : Field             (* req.connection.remoteAddress *)
}.

(** Calls that leave the process, in the order they are made, and the
    settlements the handler has observed. *)
Inductive Event : Type :=
| DbInsert (record : ContactMessage)
| ConsoleError (label : jsstr) (e : Exn)
| CreateTransport
| SendMail (d : Dispatch) (opts : MailOptions)
| Settled (d : Dispatch) (s : Settlement).

(** The state a request runs in: the calls so far and the Express
    response object ([res.statusCode], and the body once sent). *)
Record World : Type := mkWorld {
  calls : list Event;
  statusCode : N;
  sent : option Json
}.

Definition initial_world : World := mkWorld [] 200 None.

Definition response (w : World) : option Response :=
  option_map (mkResponse (statusCode w)) (sent w).

(** A computation returns, throws, or never resumes from an [await]. *)
Inductive Result (A : Type) : Type :=
| Val (a : A)
| Throw (e : Exn)
| Stuck.
Arguments Val {A} a.
Arguments Throw {A} e.
Arguments Stuck {A}.

Definition M (A : Type) : Type := World -> World * Result A.

Definition ret {A} (a : A) : M A := fun w => (w, Val a).

Definition bind {A B} (m : M A) (k : A -> M B) : M B :=
  fun w =>
    match m w with
    | (w', Val a) => k a w'
    | (w', Throw e) => (w', Throw e)
    | (w', Stuck) => (w', Stuck)
    end.

Notation "x <- c1 ;; c2" := (bind c1 (fun x => c2))
  (at level 61, c1 at next level, right associativity).
Notation "c1 ;; c2" := (bind c1 (fun _ => c2))
  (at level 61, right associativity).

Definition throw {A} (e : Exn) : M A := fun w => (w, Throw e).

Definition stuck {A} : M A := fun w => (w, Stuck).

(** [try { m } catch (e) { h e }] *)
Definition try_catch {A} (m : M A) (h : Exn -> M A) : M A :=
  fun w =>
    match m w with
    | (w', Throw e) => h e w'
    | other => other
    end.

Definition emit (e : Event) : M unit :=
  fun w => (mkWorld (calls w ++ [e]) (statusCode w) (sent w), Val tt).

Fixpoint emit_all (es : list Event) : M unit :=
  match es with
  | [] => ret tt
  | e :: rest => emit e ;; emit_all rest
  end.

(** [res.status(code)] *)
Definition res_status (code : N) : M unit :=
  fun w => (mkWorld (calls w) code (sent w), Val tt).

(** [res.json(body)] *)
Definition res_json (j : Json) : M unit :=
  fun w => (mkWorld (calls w) (statusCode w) (Some j), Val tt).

(** [console.error(label, e)] *)
Definition console_error (label : string) (e : Exn) : M unit :=
  emit (ConsoleError (js label) e).

(** Calling a string method on a property: a TypeError on [undefined]. *)
Definition receiver (method : string) (v : Field) : M jsstr :=
  match v with
  | Some s => ret s
  | None =>
      throw (TypeError ("Cannot read properties of undefined (reading '"
                          ++ method ++ "')"))
  end.

(** [data[0].id] *)
Definition first_row_id (data : option (list Row)) : M jsstr :=
  match data with
  | None => throw (TypeError "Cannot read properties of null (reading '0')")
  | Some [] =>
      throw (TypeError "Cannot read properties of undefined (reading 'id')")
  | Some (row :: _) => ret (id row)
  end.

(* ------------------------------------------------------------------ *)
(** *** Promise.all *)

Inductive AllOutcome : Type :=
| AllFulfilled
| AllRejected (reason : Exn).

(** The combined promise at the moment the awaiting code resumes: the
    settlements that led there, its own outcome ([None]: it never
    settles), and the dispatches still in flight at that moment. *)
Record AllState : Type := mkAllState {
  seen : list (Dispatch * Settlement);
  outcome : option AllOutcome;
  pending : list Dispatch
}.

(** [Promise.all]: fulfilled once every input promise is fulfilled,
    rejected as soon as one input promise is rejected, with that
    promise's reason. *)
Fixpoint promise_all (waiting : list Dispatch)
    (evs : list (Dispatch * Settlement)) : AllState :=
  match waiting with
  | [] => mkAllState [] (Some AllFulfilled) []
  | _ :: _ =>
      match evs with
      | [] => mkAllState [] None waiting
      | (d, Fulfilled) :: rest =>
          let st := promise_all (remove Dispatch_eq_dec d waiting) rest in
          mkAllState ((d, Fulfilled) :: seen st) (outcome st) (pending st)
      | (d, Rejected e) :: _ =>
          mkAllState [(d, Rejected e)] (Some (AllRejected e))
            (remove Dispatch_eq_dec d waiting)
      end
  end.

(** [await Promise.all([p_admin, p_user])] *)
Definition await_all (run : MailRun) : M unit :=
  let st := promise_all [AdminMail; UserMail] (settlements run) in
  emit_all (map (fun ds => Settled (fst ds) (snd ds)) (seen st)) ;;
  match outcome st with
  | Some AllFulfilled => ret tt
  | Some (AllRejected e) => throw e
  | None => stuck
  end.

(* ================================================================== *)
(** ** The submission handler (src/server.js, app.post('/api/contact')) *)

Section Submission.

(** [String.prototype.toLowerCase], the Unicode lower-case mapping of
    the runtime. *)
Variable toLowerCase : jsstr -> jsstr.

Variable env : Env.
Variable o : Oracle.

Definition contact_handler (req : Request) : M unit :=
  try_catch
    (let name := b_name (body req) in
     let email := b_email (body req) in
     let subject := b_subject (body req) in
     let message := b_message (body req) in
     let timestamp := now o in
     let clientIp := js_or (ip req) (remoteAddress req) in
     name' <- receiver "trim" name ;;
     email' <- receiver "toLowerCase" email ;;
     subject' <- receiver "trim" subject ;;
     message' <- receiver "trim" message ;;
     let record :=
       mkContactMessage (trim name') (trim (toLowerCase email'))
         (trim subject') (trim message') clientIp timestamp (js "new") in
     emit (DbInsert record) ;;
     match insert_outcome o with
     | InsertThrew e => throw e
     | Returned data (Some error) =>
         console_error "Supabase error:" error ;;
         console_error "Error details:" error ;;
         res_status 500 ;;
         res_json
           (ErrorBody (js "Database error")
              (js "Failed to store your message. Please try again or contact us directly.")
              (if strict_eq (NODE_ENV env) (js "development")
               then Some (exn_message error) else None))
     | Returned data None =>
         try_catch
           (emit CreateTransport ;;
            let adminMailOptions :=
              mkMail (SMTP_FROM env) (ADMIN_EMAIL env)
                (js "New Contact Form Submission: " ++ subject')
                (AdminHtml name' email' subject' timestamp clientIp message')
            in
            let userMailOptions :=
              mkMail (SMTP_FROM env) (Some email')
                (js "Thank you for contacting HafTech - " ++ subject')
                (AutoReplyHtml name' subject' timestamp)
            in
            emit (SendMail AdminMail adminMailOptions) ;;
            emit (SendMail UserMail userMailOptions) ;;
            await_all (mail_run o))
           (fun emailError => console_error "Email error:" emailError) ;;
         res_status 200 ;;
         row_id <- first_row_id data ;;
         res_json
           (SuccessBody (js "Message sent successfully!") row_id timestamp)
     end)
    (fun error =>
       console_error "Contact form error:" error ;;
       res_status 500 ;;
       res_json
         (ErrorBody (js "Server error")
            (js "Something went wrong. Please try again later or contact us directly.")
            None)).

(** The route, for a request the rate limiter lets through:
    [validateContactForm], then the handler. *)
Definition contact_route (req : Request) : M unit :=
  match validateContactForm (body req) with
  | Some rejection =>
      res_status (status rejection) ;; res_json (json rejection)
  | None => contact_handler req
  end.

(** One request through the route, from a fresh response object. *)
Definition run_contact (req : Request) : World * Result unit :=
  contact_route req initial_world.

End Submission.

(* ================================================================== *)
(** ** The health check (src/server.js, app.get('/api/health')) *)

(** The connectivity probe returns [{ data, error }] or throws. *)
Inductive ProbeOutcome : Type :=
| ProbeReturned (error : option Exn)
| ProbeThrew (e : Exn).

(** [timestamp] and [uptime] are the readings of [new Date()] and
    [process.uptime()] (the latter in milliseconds), which the handler
    only copies. *)
Definition health_handler (env : Env) (timestamp : jsstr) (uptime : N)
    (probe : ProbeOutcome) : M unit :=
  try_catch
    (match probe with
     | ProbeThrew e => throw e
     | ProbeReturned error =>
         res_json
           (HealthBody (js "OK") timestamp uptime
              (match error with
               | Some _ => js "ERROR"
               | None => js "CONNECTED"
               end)
              (str (js_or (NODE_ENV env) (Some (js "development"))))
              (if falsy (SUPABASE_URL env) then js "NOT_SET" else js "SET")
              (if falsy (SUPABASE_ANON_KEY env) then js "NOT_SET"
               else js "SET"))
     end)
    (fun error =>
       console_error "Health check error:" error ;;
       res_status 500 ;;
       res_json
         (HealthErrorBody (js "ERROR") timestamp uptime (js "ERROR")
            (exn_message error))).

(* ================================================================== *)
(** ** Vocabulary of the specification *)

(** The fields with a length bound. *)
Inductive LengthField : Type := FName | FSubject | FMessage.

(** The validation errors of the error taxonomy. *)
Inductive Rejection : Type :=
| MissingField
| InvalidEmailFormat
| InvalidLength (f : LengthField).

(** The wire form of each rejection. *)
Definition rejection_response (r : Rejection) : Response :=
  mkResponse 400
    match r with
    | MissingField =>
        ErrorBody (js "All fields are required")
          (js "Please fill in all required fields: name, email, subject, and message.")
          None
    | InvalidEmailFormat =>
        ErrorBody (js "Invalid email format")
          (js "Please provide a valid email address.") None
    | InvalidLength FName =>
        ErrorBody (js "Invalid name length")
          (js "Name must be between 2 and 100 characters.") None
    | InvalidLength FSubject =>
        ErrorBody (js "Invalid subject length")
          (js "Subject must be between 5 and 200 characters.") None
    | InvalidLength FMessage =>
        ErrorBody (js "Invalid message length")
          (js "Message must be between 10 and 2000 characters.") None
    end.

(** 500 [DatabaseError], with or without the debug field. *)
Definition DatabaseError (debug : option jsstr) : Response :=
  mkResponse 500
    (ErrorBody (js "Database error")
       (js "Failed to store your message. Please try again or contact us directly.")
       debug).

(** 500 [ServerError], the answer of the catch-all boundary. *)
Definition ServerError : Response :=
  mkResponse 500
    (ErrorBody (js "Server error")
       (js "Something went wrong. Please try again later or contact us directly.")
       None).

(** 200 with the generated id and the receipt timestamp. *)
Definition Success (row_id timestamp : jsstr) : Response :=
  mkResponse 200
    (SuccessBody (js "Message sent successfully!") row_id timestamp).

(** A field is absent or empty. *)
Definition absent_or_empty (v : Field) : bool :=
  match v with
  | Some (_ :: _) => false
  | _ => true
  end.

(** The length of a string lies in [[lo, hi]], both ends included. *)
Definition within (lo hi : nat) (s : jsstr) : bool :=
  (lo <=? length s) && (length s <=? hi).

Definition bounds (f : LengthField) : nat * nat :=
  match f with
  | FName => (2, 100)
  | FSubject => (5, 200)
  | FMessage => (10, 2000)
  end.

Definition field_of (f : LengthField) (b : Body) : Field :=
  match f with
  | FName => b_name b
  | FSubject => b_subject b
  | FMessage => b_message b
  end.

(** The condition under which each rejection applies, taken alone. *)
Definition violates (b : Body) (r : Rejection) : bool :=
  match r with
  | MissingField =>
      existsb absent_or_empty [b_name b; b_email b; b_subject b; b_message b]
  | InvalidEmailFormat => negb (test emailRegex (str (b_email b)))
  | InvalidLength f =>
      negb (within (fst (bounds f)) (snd (bounds f)) (str (field_of f b)))
  end.

(** The order of the checks: presence, email format, name length,
    subject length, message length. *)
Definition check_order : list Rejection :=
  [MissingField; InvalidEmailFormat; InvalidLength FName;
   InvalidLength FSubject; InvalidLength FMessage].

(** The first violation in that order, if any. *)
Definition first_violation (b : Body) : option Rejection :=
  find (violates b) check_order.

(** The email pattern in the words of the specification: local-part,
    "@", domain, ".", top-level segment, each of them non-empty, no
    whitespace anywhere, a single "@". *)
Definition spec_email_pattern (s : jsstr) : Prop :=
  exists local domain tld : jsstr,
    s = local ++ AT :: domain ++ DOT :: tld /\
    local <> [] /\ domain <> [] /\ tld <> [] /\
    (forall c, In c s -> is_space c = false) /\
    count_occ N.eq_dec s AT = 1.

(** All four fields are present and non-empty. *)
Definition all_present (b : Body) : Prop :=
  absent_or_empty (b_name b) = false /\
  absent_or_empty (b_email b) = false /\
  absent_or_empty (b_subject b) = false /\
  absent_or_empty (b_message b) = false.

(** The record the specification says is persisted for a submission:
    name, subject and message trimmed, email lower-cased and trimmed,
    the source address of the request, the receipt timestamp, status
    "new". *)
Definition normalized (toLowerCase : jsstr -> jsstr) (o : Oracle)
    (req : Request) : ContactMessage :=
  {| name := trim (str (b_name (body req)));
     email := trim (toLowerCase (str (b_email (body req))));
     subject := trim (str (b_subject (body req)));
     message := trim (str (b_message (body req)));
     ip_address := js_or (ip req) (remoteAddress req);
     created_at := now o;
     msg_status := js "new" |}.

(** What an observer of the collaborators sees of a run: the records
    handed to the datastore, the messages handed to the mail relay, the
    transports created, the errors logged. *)
Definition inserted (w : World) : list ContactMessage :=
  flat_map (fun e => match e with DbInsert r => [r] | _ => [] end) (calls w).

Definition mails (w : World) : list (Dispatch * MailOptions) :=
  flat_map (fun e => match e with SendMail d m => [(d, m)] | _ => [] end)
    (calls w).

Definition transports (w : World) : nat :=
  length (filter (fun e => match e with CreateTransport => true | _ => false end)
            (calls w)).

Definition logged (w : World) : list (jsstr * Exn) :=
  flat_map (fun e => match e with ConsoleError l x => [(l, x)] | _ => [] end)
    (calls w).

(** The debug property of the body sent, if any. *)
Definition debug_of (w : World) : option jsstr :=
  match sent w with
  | Some (ErrorBody _ _ debug) => debug
  | _ => None
  end.

(** The error responses of the submission path that are made of fixed
    text only. *)
Definition fixed_error_responses : list Response :=
  map rejection_response check_order ++ [DatabaseError None; ServerError].

(** The reason of the first dispatch, in settlement order, that fails. *)
Fixpoint first_rejection (evs : list (Dispatch * Settlement)) : option Exn :=
  match evs with
  | [] => None
  | (_, Rejected e) :: _ => Some e
  | (_, Fulfilled) :: rest => first_rejection rest
  end.

(** How the dispatch that settles first settles. *)
Definition first_result (r : MailRun) : Settlement :=
  match first r with
  | AdminMail => admin_result r
  | UserMail => user_result r
  end.

(** One non-blank code unit followed by [k] spaces. *)
Definition padded (c : jschar) (k : nat) : jsstr := c :: repeat SP k.

(** The other of the two dispatches. *)
Definition other (d : Dispatch) : Dispatch :=
  match d with
  | AdminMail => UserMail
  | UserMail => AdminMail
  end.

(** A lower-casing of the ASCII letters, one instance of
    [toLowerCase] (it agrees with the runtime on ASCII strings). *)
Definition ascii_toLowerCase (s : jsstr) : jsstr :=
  map (fun c => if (65 <=? c) && (c <=? 90) then c + 32 else c)%N s.


(** A sample request and sample collaborators, for running the model. *)
Module Sample.

Definition body0 : Body :=
  mkBody (Some (js "Ada")) (Some (js "Ada@Example.org"))
    (Some (js "Hello there")) (Some (js "A message of some length.")).

Definition req0 : Request := mkRequest body0 (Some (js "203.0.113.7")) None.

Definition ts0 : jsstr := js "2024-05-01T10:00:00.000Z".

Definition row0 : Row :=
  mkRow (js "7d44a1c2-0000-4000-8000-000000000001")
    (mkContactMessage (js "Ada") (js "ada@example.org") (js "Hello there")
       (js "A message of some length.") (Some (js "203.0.113.7")) ts0
       (js "new")).

Definition db_down : Exn := mkExn (js "PostgrestError") (js "connection refused").
Definition smtp_down : Exn := mkExn (js "Error") (js "ECONNREFUSED").
Definition smtp_reject : Exn := mkExn (js "Error") (js "550 mailbox unavailable").

Definition dev : Env :=
  mkEnv (Some (js "development")) (Some (js "noreply@haftech.com"))
    (Some (js "admin@haftech.com")) (Some (js "https://db.example.co"))
    (Some (js "anon-key")).
Definition prod : Env :=
  mkEnv (Some (js "production")) (Some (js "noreply@haftech.com"))
    (Some (js "admin@haftech.com")) (Some (js "https://db.example.co"))
    (Some (js "anon-key")).
Definition testing : Env :=
  mkEnv (Some (js "test")) (Some (js "noreply@haftech.com"))
    (Some (js "admin@haftech.com")) (Some (js "https://db.example.co"))
    (Some (js "anon-key")).

Definition both_delivered : MailRun := mkMailRun AdminMail Fulfilled Fulfilled.
Definition both_fail : MailRun :=
  mkMailRun AdminMail (Rejected smtp_down) (Rejected smtp_reject).
(** The admin mail fails at once, the auto-reply is delivered later. *)
Definition admin_fails_first : MailRun :=
  mkMailRun AdminMail (Rejected smtp_down) Fulfilled.

Definition stored : InsertOutcome := Returned (Some [row0]) None.
Definition failed : InsertOutcome := Returned None (Some db_down).
(** Success reported, no row returned. *)
Definition stored_silently : InsertOutcome := Returned (Some []) None.

(** A name, a subject and a message that are one letter and spaces. *)
Definition padded_body : Body :=
  mkBody (Some (padded 97%N 1)) (Some (js "a@b.co")) (Some (padded 98%N 4))
    (Some (padded 99%N 9)).

End Sample.

(* ================================================================== *)
(** ** The admin listing (src/server.js, app.get('/api/admin/messages')) *)

(** What [await supabase.from(..).select('*').order(..)] gives. *)
Inductive SelectOutcome : Type :=
| Selected (data : option (list Row)) (error : option Exn)
| SelectThrew (e : Exn).

(** The JSON bodies of the listing. *)
Inductive ListJson : Type :=
| ListBody (data : list Row) (count : nat)
| ListError (error details : jsstr).

(** [data.length] *)
Definition row_count (data : option (list Row)) : M nat :=
  match data with
  | None =>
      throw (TypeError "Cannot read properties of null (reading 'length')")
  | Some rows => ret (length rows)
  end.

(** The handler; the value it returns is the body it hands to
    [res.json], the status and the log lines are in the state. *)
Definition admin_messages_handler (o : SelectOutcome) : M ListJson :=
  try_catch
    (match o with
     | SelectThrew e => throw e
     | Selected _ (Some error) => throw error
     | Selected data None =>
         count <- row_count data ;;
         ret (ListBody (match data with Some rows => rows | None => [] end)
                count)
     end)
    (fun error =>
       console_error "Admin messages error:" error ;;
       res_status 500 ;;
       ret (ListError (js "Server error") (js "Failed to fetch messages."))).

(* ================================================================== *)
(** ** The allowed origins (src/server.js, app.use(cors({ origin }))) *)

(** An entry of the [origin] array: a string, compared with [===], or a
    regular expression anchored at the end only, run with [test]. *)
Inductive OriginRule : Type :=
| Exact (s : jsstr)
| EndsLike (r : regex).

(** The regex of a literal string. *)
Fixpoint RStr (l : jsstr) : regex :=
  match l with
  | [] => REps
  | c :: rest => RSeq (RChar c) (RStr rest)
  end.

(** [r.test(s)] for a pattern [/r$/]: the match may start anywhere and
    must reach the end of [s]. *)
Fixpoint test_at_end (r : regex) (s : jsstr) : bool :=
  test r s ||
  match s with
  | [] => false
  | _ :: rest => test_at_end r rest
  end.

(** [/\.vercel\.app$/] *)
Definition vercelRegex : regex := RStr (js ".vercel.app").

(** The [origin] option; [client_url_prod] is
    [process.env.CLIENT_URL_PROD]. *)
Definition cors_origin (env : Env) (client_url_prod : Field)
    : list OriginRule :=
  if strict_eq (NODE_ENV env) (js "production") then
    [Exact (str (js_or client_url_prod
                   (Some (js "https://your-portfolio.vercel.app"))));
     Exact (js "https://portfolio-project-frontend.vercel.app");
     EndsLike vercelRegex]
  else
    [Exact (js "http://localhost:5173"); Exact (js "http://localhost:3000")].

(** The test the cors middleware applies to the Origin header of a
    request against such an array: some entry accepts it. *)
Definition origin_allowed (rules : list OriginRule) (origin : jsstr) : bool :=
  existsb
    (fun rule =>
       match rule with
       | Exact s => if list_eq_dec N.eq_dec origin s then true else false
       | EndsLike r => test_at_end r origin
       end)
    rules.

(* ================================================================== *)
(** ** The table (contact_messages, CREATE TABLE) *)

Definition is_high_surrogate (c : jschar) : bool :=
  ((55296 <=? c) && (c <=? 56319))%N.

Definition is_low_surrogate (c : jschar) : bool :=
  ((56320 <=? c) && (c <=? 57343))%N.

(** The number of characters of a string, as the datastore counts them
    for [VARCHAR(n)]: a surrogate pair is one character. *)
Fixpoint char_count (s : jsstr) : nat :=
  match s with
  | [] => 0
  | c :: rest =>
      match rest with
      | d :: rest' =>
          if is_high_surrogate c && is_low_surrogate d
          then S (char_count rest')
          else S (char_count rest)
      | [] => 1
      end
  end.

(** The widths of the [VARCHAR] columns the handler writes. *)
Definition NAME_WIDTH : nat := 100.
Definition EMAIL_WIDTH : nat := 255.
Definition SUBJECT_WIDTH : nat := 200.
Definition STATUS_WIDTH : nat := 20.

(** A record fits the [VARCHAR] columns. *)
Definition fits_columns (r : ContactMessage) : bool :=
  (char_count (name r) <=? NAME_WIDTH)
  && (char_count (email r) <=? EMAIL_WIDTH)
  && (char_count (subject r) <=? SUBJECT_WIDTH)
  && (char_count (msg_status r) <=? STATUS_WIDTH).

(* ================================================================== *)
(** ** More vocabulary *)

(** A string neither starts nor ends with whitespace. *)
Definition clean (s : jsstr) : bool :=
  match s with
  | [] => true
  | c :: _ => negb (is_space c) && negb (is_space (last s c))
  end.

(** Some field of a body is absent or empty. *)
Definition some_field_missing (b : Body) : bool :=
  existsb absent_or_empty [b_name b; b_email b; b_subject b; b_message b].

(** The two messages of a request, as the handler builds them from the
    fields submitted. *)
Definition both_mails (env : Env) (o : Oracle) (req : Request)
    : list (Dispatch * MailOptions) :=
  let clientIp := js_or (ip req) (remoteAddress req) in
  let n := str (b_name (body req)) in
  let e := str (b_email (body req)) in
  let s := str (b_subject (body req)) in
  let m := str (b_message (body req)) in
  [(AdminMail,
    mkMail (SMTP_FROM env) (ADMIN_EMAIL env)
      (js "New Contact Form Submission: " ++ s)
      (AdminHtml n e s (now o) clientIp m));
   (UserMail,
    mkMail (SMTP_FROM env) (Some e)
      (js "Thank you for contacting HafTech - " ++ s)
      (AutoReplyHtml n s (now o)))].

(** An email address with a local part of [k] letters. *)
Definition long_email (k : nat) : jsstr := repeat 97%N k ++ js "@b.co".

(** Sample inputs for the parts above. *)
Module Sample2.

(** The sample body with an email of 256 characters. *)
Definition long_body : Body :=
  mkBody (b_name Sample.body0) (Some (long_email 251))
    (b_subject Sample.body0) (b_message Sample.body0).

(** A body whose email lacks a top-level segment. *)
Definition bad_email_body : Body :=
  mkBody (b_name Sample.body0) (Some (js "ada@example"))
    (b_subject Sample.body0) (b_message Sample.body0).

(** A body without a subject. *)
Definition no_subject_body : Body :=
  mkBody (b_name Sample.body0) (b_email Sample.body0) None
    (b_message Sample.body0).


Definition client_throws : InsertOutcome := InsertThrew Sample.db_down.

End Sample2.

(* ================================================================== *)
(** ** Regular expressions: the matcher decides the language *)

Lemma nullable_matches (r : regex) : nullable r = true <-> matches r [].
Proof.
  split.
  - induction r; simpl; intro H; try discriminate.
    + constructor.
    + apply andb_true_iff in H as [Ha Hb].
      change (@nil jschar) with (@nil jschar ++ []). constructor; auto.
    + apply orb_true_iff in H as [Ha | Hb].
      * apply MAltL; auto.
      * apply MAltR; auto.
    + constructor.
  - intro H. remember (@nil jschar) as s eqn:Es.
    induction H; simpl; subst; try discriminate; auto.
    + apply app_eq_nil in Es as [-> ->]. rewrite IHmatches1, IHmatches2; auto.
    + rewrite IHmatches; auto.
    + rewrite IHmatches; auto. apply orb_true_r.
Qed.

Lemma matches_seq_inv (a b : regex) (s : jsstr) :
  matches (RSeq a b) s ->
  exists s1 s2, s = s1 ++ s2 /\ matches a s1 /\ matches b s2.
Proof. intro H. inversion H; subst. eauto. Qed.

Lemma matches_deriv (c : jschar) (r : regex) :
  forall s, matches (deriv c r) s -> matches r (c :: s).
Proof.
  induction r; simpl; intros s H.
  - inversion H.
  - inversion H.
  - destruct (b c) eqn:E; inversion H; subst. constructor; assumption.
  - destruct (nullable r1) eqn:N1.
    + inversion H as [ | | | ? ? ? HL | ? ? ? HR | | ]; subst.
      * apply matches_seq_inv in HL as (s1 & s2 & -> & H1 & H2).
        change (c :: s1 ++ s2) with ((c :: s1) ++ s2). constructor; auto.
      * change (c :: s) with ([] ++ c :: s). constructor; auto.
        apply nullable_matches; assumption.
    + apply matches_seq_inv in H as (s1 & s2 & -> & H1 & H2).
      change (c :: s1 ++ s2) with ((c :: s1) ++ s2). constructor; auto.
  - inversion H; subst.
    + apply MAltL; auto.
    + apply MAltR; auto.
  - apply matches_seq_inv in H as (s1 & s2 & -> & H1 & H2).
    change (c :: s1 ++ s2) with ((c :: s1) ++ s2). constructor; auto.
Qed.

Lemma deriv_matches (c : jschar) (r : regex) (s : jsstr) :
  matches r (c :: s) -> matches (deriv c r) s.
Proof.
  intro H. remember (c :: s) as cs eqn:E. revert s E.
  induction H; intros u E; simpl; try discriminate.
  - injection E as -> <-. rewrite H. constructor.
  - destruct s as [| x s'].
    + simpl in E. subst t.
      assert (Na : nullable a = true) by (apply nullable_matches; assumption).
      rewrite Na. apply MAltR. auto.
    + simpl in E. injection E as -> <-.
      destruct (nullable a).
      * apply MAltL. constructor; auto.
      * constructor; auto.
  - apply MAltL; auto.
  - apply MAltR; auto.
  - destruct s as [| x s'].
    + simpl in E. subst t. apply IHmatches2. reflexivity.
    + simpl in E. injection E as -> <-.
      constructor; auto.
Qed.

Lemma test_matches (s : jsstr) :
  forall r, test r s = true <-> matches r s.
Proof.
  induction s as [| c s IH]; intro r; simpl.
  - apply nullable_matches.
  - rewrite IH. split.
    + apply matches_deriv.
    + apply deriv_matches.
Qed.

Lemma star_class (p : jschar -> bool) (s : jsstr) :
  matches (RStar (RClass p)) s <-> forallb p s = true.
Proof.
  split.
  - intro H. remember (RStar (RClass p)) as r eqn:Er.
    induction H; try discriminate; auto.
    injection Er as ->.
    inversion H as [ | q c Hc | | | | | ]; subst. simpl.
    rewrite IHmatches2 by reflexivity. rewrite Hc. reflexivity.
  - induction s as [| c s IH]; simpl; intro H.
    + constructor.
    + apply andb_true_iff in H as [Hc Hs].
      change (c :: s) with ([c] ++ s).
      constructor; [constructor; assumption | auto].
Qed.

Lemma plus_class (p : jschar -> bool) (s : jsstr) :
  matches (RPlus (RClass p)) s <-> s <> [] /\ forallb p s = true.
Proof.
  unfold RPlus. split.
  - intro H. apply matches_seq_inv in H as (s1 & s2 & -> & H1 & H2).
    inversion H1 as [ | q c Hc | | | | | ]; subst.
    apply star_class in H2. simpl. split.
    + discriminate.
    + rewrite Hc, H2. reflexivity.
  - intros [Hne H]. destruct s as [| c s]; [contradiction |].
    simpl in H. apply andb_true_iff in H as [Hc Hs].
    change (c :: s) with ([c] ++ s).
    constructor; [constructor; assumption | apply star_class; assumption].
Qed.

Lemma matches_char_inv (c : jschar) (s : jsstr) :
  matches (RChar c) s -> s = [c].
Proof.
  unfold RChar. intro H. inversion H as [ | q x Hx | | | | | ]; subst.
  apply N.eqb_eq in Hx. subst. reflexivity.
Qed.

(** The strings [emailRegex] accepts, spelled out. *)
Lemma emailRegex_shape (s : jsstr) :
  matches emailRegex s <->
  exists l d t : jsstr,
    s = l ++ AT :: d ++ DOT :: t /\
    l <> [] /\ d <> [] /\ t <> [] /\
    forallb notSpaceAt l = true /\
    forallb notSpaceAt d = true /\
    forallb notSpaceAt t = true.
Proof.
  unfold emailRegex. split.
  - intro H.
    apply matches_seq_inv in H as (l & r1 & -> & Hl & H).
    apply matches_seq_inv in H as (a & r2 & -> & Ha & H).
    apply matches_seq_inv in H as (d & r3 & -> & Hd & H).
    apply matches_seq_inv in H as (x & t & -> & Hx & Ht).
    apply matches_char_inv in Ha. apply matches_char_inv in Hx. subst.
    apply plus_class in Hl as [? ?].
    apply plus_class in Hd as [? ?].
    apply plus_class in Ht as [? ?].
    exists l, d, t. simpl. repeat split; assumption.
  - intros (l & d & t & -> & Hl & Hd & Ht & Fl & Fd & Ft).
    constructor; [apply plus_class; auto |].
    change (AT :: d ++ DOT :: t) with ([AT] ++ d ++ [DOT] ++ t).
    constructor; [constructor; apply N.eqb_refl |].
    constructor; [apply plus_class; auto |].
    constructor; [constructor; apply N.eqb_refl |].
    apply plus_class; auto.
Qed.

Lemma notSpaceAt_spec (c : jschar) :
  notSpaceAt c = true <-> is_space c = false /\ c <> AT.
Proof.
  unfold notSpaceAt. rewrite andb_true_iff, !negb_true_iff, N.eqb_neq.
  reflexivity.
Qed.

Lemma forallb_notSpaceAt (l : jsstr) :
  forallb notSpaceAt l = true <->
  (forall c, In c l -> is_space c = false) /\ count_occ N.eq_dec l AT = 0.
Proof.
  rewrite forallb_forall, <- count_occ_not_In. split.
  - intro H. split.
    + intros c Hc. apply notSpaceAt_spec; auto.
    + intro Hin. apply H in Hin. apply notSpaceAt_spec in Hin as [_ Hin].
      apply Hin; reflexivity.
  - intros [Hs Hat] c Hc. apply notSpaceAt_spec. split; auto.
    intros ->. contradiction.
Qed.

Lemma count_at_shape (l d t : jsstr) :
  count_occ N.eq_dec (l ++ AT :: d ++ DOT :: t) AT =
  count_occ N.eq_dec l AT
  + S (count_occ N.eq_dec d AT + count_occ N.eq_dec t AT).
Proof.
  rewrite count_occ_app, count_occ_cons_eq by reflexivity.
  rewrite count_occ_app, count_occ_cons_neq by discriminate.
  reflexivity.
Qed.

(** The regular expression of the source accepts exactly the pattern the
    specification describes. *)
Lemma emailRegex_pattern (s : jsstr) :
  test emailRegex s = true <-> spec_email_pattern s.
Proof.
  rewrite test_matches, emailRegex_shape. unfold spec_email_pattern.
  split.
  - intros (l & d & t & -> & Hl & Hd & Ht & Fl & Fd & Ft).
    apply forallb_notSpaceAt in Fl as [Sl Cl].
    apply forallb_notSpaceAt in Fd as [Sd Cd].
    apply forallb_notSpaceAt in Ft as [St Ct].
    exists l, d, t. repeat split; auto.
    + intros c Hc.
      apply in_app_or in Hc as [Hc | [<- | Hc]]; auto.
      apply in_app_or in Hc as [Hc | [<- | Hc]]; auto.
    + rewrite count_at_shape, Cl, Cd, Ct. reflexivity.
  - intros (l & d & t & -> & Hl & Hd & Ht & Hs & Hc).
    rewrite count_at_shape in Hc.
    exists l, d, t. repeat split; auto;
      apply forallb_notSpaceAt; (split; [| lia]); intros c Hin; apply Hs.
    + apply in_or_app. left; assumption.
    + apply in_or_app. right. right. apply in_or_app. left; assumption.
    + apply in_or_app. right. right. apply in_or_app. right. right.
      assumption.
Qed.

(* ================================================================== *)
(** ** The validator *)

Lemma falsy_absent (v : Field) : falsy v = absent_or_empty v.
Proof. destruct v as [[| c s] |]; reflexivity. Qed.

Lemma out_of_bounds (lo hi : nat) (s : jsstr) :
  (length s <? lo) || (hi <? length s) = negb (within lo hi s).
Proof.
  unfold within. rewrite negb_andb, !Nat.ltb_antisym. reflexivity.
Qed.

Lemma within_spec (lo hi : nat) (s : jsstr) :
  within lo hi s = true <-> lo <= length s <= hi.
Proof.
  unfold within. rewrite andb_true_iff, !Nat.leb_le. reflexivity.
Qed.

(** The chain of early returns is a search for the first violation. *)
Lemma validate_first_violation (b : Body) :
  validateContactForm b = option_map rejection_response (first_violation b).
Proof.
  unfold validateContactForm, first_violation, check_order.
  cbn [find violates existsb bounds field_of fst snd].
  rewrite (falsy_absent (b_name b)), (falsy_absent (b_email b)),
    (falsy_absent (b_subject b)), (falsy_absent (b_message b)).
  rewrite !out_of_bounds, orb_false_r, !orb_assoc.
  destruct (absent_or_empty (b_name b) || absent_or_empty (b_email b)
            || absent_or_empty (b_subject b) || absent_or_empty (b_message b));
    [reflexivity |].
  destruct (negb (test emailRegex (str (b_email b)))); [reflexivity |].
  destruct (negb (within 2 100 (str (b_name b)))); [reflexivity |].
  destruct (negb (within 5 200 (str (b_subject b)))); [reflexivity |].
  destruct (negb (within 10 2000 (str (b_message b)))); reflexivity.
Qed.

Lemma rejection_response_inj (r1 r2 : Rejection) :
  rejection_response r1 = rejection_response r2 -> r1 = r2.
Proof.
  destruct r1 as [| | []], r2 as [| | []]; intro H;
    try reflexivity; vm_compute in H; discriminate H.
Qed.

Lemma all_present_violates (b : Body) :
  all_present b <-> violates b MissingField = false.
Proof.
  unfold all_present. cbn [violates existsb].
  rewrite !orb_false_iff. tauto.
Qed.

(** C4.  For every four inputs (strings, or absent), the validator
    checks presence of all four fields, then the email format, then the
    name length, then the subject length, then the message length, and
    answers with the first violation in that order: MissingField,
    InvalidEmailFormat, InvalidLength of the field. With no violation it
    calls [next()]. *)
Theorem validator_reports_first_violation (b : Body) :
  validateContactForm b =
  option_map rejection_response (find (violates b) check_order)
  /\ check_order =
     [MissingField; InvalidEmailFormat; InvalidLength FName;
      InvalidLength FSubject; InvalidLength FMessage].
Proof.
  split; [apply validate_first_violation | reflexivity].
Qed.

(** C5.  For a submission that passes the presence check: an email that
    does not have the shape local-part, one "@", domain, ".", top-level
    segment without whitespace is rejected with InvalidEmailFormat, and
    an email of that shape passes the email-format check (the regular
    expression accepts it and the validator does not answer
    InvalidEmailFormat). *)
Theorem email_format_check_is_the_pattern (b : Body) (Hp : all_present b) :
  (~ spec_email_pattern (str (b_email b)) ->
   validateContactForm b = Some (rejection_response InvalidEmailFormat))
  /\
  (spec_email_pattern (str (b_email b)) ->
   test emailRegex (str (b_email b)) = true /\
   validateContactForm b <> Some (rejection_response InvalidEmailFormat)).
Proof.
  apply all_present_violates in Hp.
  rewrite validate_first_violation. unfold first_violation, check_order.
  cbn [find]. rewrite Hp. split.
  - intro Hn.
    assert (E : test emailRegex (str (b_email b)) = false).
    { destruct (test emailRegex (str (b_email b))) eqn:E; [| reflexivity].
      apply emailRegex_pattern in E. contradiction. }
    cbn [violates]. rewrite E. reflexivity.
  - intro Hy. apply emailRegex_pattern in Hy. split; [assumption |].
    cbn [violates]. rewrite Hy. cbn [negb].
    repeat match goal with
           | |- context [if ?c then _ else _] => destruct c
           end; cbn [option_map]; try discriminate;
      intro H; injection H as H; apply rejection_response_inj in H;
      discriminate H.
Qed.

(** The validator lets a submission through exactly when every check
    holds. *)
Lemma validate_none_iff (b : Body) :
  validateContactForm b = None <->
  test emailRegex (str (b_email b)) = true /\
  2 <= length (str (b_name b)) <= 100 /\
  5 <= length (str (b_subject b)) <= 200 /\
  10 <= length (str (b_message b)) <= 2000.
Proof.
  rewrite <- !within_spec.
  rewrite validate_first_violation. unfold first_violation, check_order.
  cbn [find violates existsb bounds field_of fst snd].
  destruct b as [n e s m]; cbn [b_name b_email b_subject b_message].
  destruct (test emailRegex (str e)) eqn:Ee;
    destruct (within 2 100 (str n)) eqn:En;
    destruct (within 5 200 (str s)) eqn:Es;
    destruct (within 10 2000 (str m)) eqn:Em;
    destruct n as [[| ? ?] |], e as [[| ? ?] |], s as [[| ? ?] |],
             m as [[| ? ?] |];
    cbn [absent_or_empty orb negb option_map];
    try discriminate;
    split; try discriminate; try tauto; try (intros (? & ? & ? & ?); discriminate).
Qed.

(** C6.  The length bounds are inclusive at both ends: a submission is
    accepted exactly when the email passes the format check, the name
    has 2 to 100 code units, the subject 5 to 200 and the message 10 to
    2000; so with the other checks passing, a name of length 1 or 101 is
    rejected and one of length 2 or 100 accepted, and likewise for the
    subject at 5 and 200 and the message at 10 and 2000. *)
Theorem length_bounds_inclusive (b : Body) :
  validateContactForm b = None <->
  test emailRegex (str (b_email b)) = true /\
  2 <= length (str (b_name b)) <= 100 /\
  5 <= length (str (b_subject b)) <= 200 /\
  10 <= length (str (b_message b)) <= 2000.
Proof. apply validate_none_iff. Qed.

(* ================================================================== *)
(** ** The submission handler *)

Lemma valid_body (b : Body) :
  validateContactForm b = None ->
  exists n e s m : jsstr,
    b = mkBody (Some n) (Some e) (Some s) (Some m).
Proof.
  unfold validateContactForm.
  destruct b as [[n |] [e |] [s |] [m |]];
    cbn [b_name b_email b_subject b_message falsy orb];
    try discriminate; try (destruct n; discriminate);
    try (destruct n, e; discriminate);
    try (destruct n, e, s; discriminate).
  intros _. eauto.
Qed.

Ltac run_monad :=
  cbv [run_contact bind ret throw stuck try_catch emit emit_all res_status
       res_json console_error receiver first_row_id await_all promise_all
       settlements map seen outcome pending fst snd
       first admin_result user_result remove Dispatch_eq_dec
       Dispatch_rec Dispatch_rect sumbool_rec sumbool_rect
       calls statusCode sent initial_world app
       now insert_outcome mail_run].

(** Enter the handler with a body that passed the validator. *)
Ltac enter_handler Hvalid :=
  let n := fresh "n" in
  let e := fresh "e" in
  let s := fresh "s" in
  let m := fresh "m" in
  let Hb := fresh "Hb" in
  unfold run_contact, contact_route; rewrite Hvalid;
  destruct (valid_body _ Hvalid) as (n & e & s & m & Hb);
  unfold contact_handler, normalized; rewrite Hb;
  cbn [b_name b_email b_subject b_message str].

Ltac each_mail_run mr :=
  destruct mr as [[] [| ?] [| ?]].

Section SubmissionFacts.

Variable toLowerCase : jsstr -> jsstr.
Variable env : Env.

Local Abbreviation run := (run_contact toLowerCase env).

(** A valid submission reaches the datastore with the normalized record,
    once, whatever the collaborators answer afterwards. *)
Lemma insert_issued (o : Oracle) (req : Request) :
  validateContactForm (body req) = None ->
  inserted (fst (run o req)) = [normalized toLowerCase o req].
Proof.
  intro Hv. enter_handler Hv.
  destruct o as [ts [[[| row rows] |] [err |] | ex] mr]; each_mail_run mr;
    run_monad; reflexivity.
Qed.

(** C1.  For every valid submission whose insert succeeds (no error, the
    inserted row returned), the handler hands the datastore exactly one
    record: name, subject and message trimmed, email lower-cased and
    trimmed, the source address of the request, status "new" and
    created_at the timestamp taken at receipt; and it answers 200 with
    the id of the returned row and that same timestamp. *)
Theorem valid_submission_is_persisted_and_acknowledged
    (o : Oracle) (req : Request) (row : Row) (rows : list Row)
    (Hvalid : validateContactForm (body req) = None)
    (Hinsert : insert_outcome o = Returned (Some (row :: rows)) None) :
  inserted (fst (run o req)) =
    [ {| name := trim (str (b_name (body req)));
         email := trim (toLowerCase (str (b_email (body req))));
         subject := trim (str (b_subject (body req)));
         message := trim (str (b_message (body req)));
         ip_address := js_or (ip req) (remoteAddress req);
         created_at := now o;
         msg_status := js "new" |} ]
  /\ response (fst (run o req)) = Some (Success (id row) (now o))
  /\ snd (run o req) = Val tt.
Proof.
  split; [apply (insert_issued o req Hvalid) |].
  enter_handler Hvalid. rewrite Hinsert.
  destruct (mail_run o) as [[] [| ?] [| ?]]; run_monad; split; reflexivity.
Qed.

(** C2.  For every valid submission whose insert reports an error, the
    handler answers 500 DatabaseError; the only calls it makes are the
    insert and two log lines, so no transport is created, no mail is
    built and the mail relay is never invoked. *)
Theorem persistence_error_stops_before_mail
    (o : Oracle) (req : Request) (data : option (list Row)) (error : Exn)
    (Hvalid : validateContactForm (body req) = None)
    (Hinsert : insert_outcome o = Returned data (Some error)) :
  (exists debug,
      response (fst (run o req)) = Some (DatabaseError debug))
  /\ calls (fst (run o req)) =
       [DbInsert (normalized toLowerCase o req);
        ConsoleError (js "Supabase error:") error;
        ConsoleError (js "Error details:") error]
  /\ mails (fst (run o req)) = []
  /\ transports (fst (run o req)) = 0
  /\ snd (run o req) = Val tt.
Proof.
  enter_handler Hvalid. rewrite Hinsert. run_monad.
  repeat split; try reflexivity. eexists. reflexivity.
Qed.

(** C3.  For every valid submission whose insert succeeds, the answer is
    200 success whatever the two dispatches do: for every mail run, also
    one where both sends fail, the response is the same success
    response, the failure is only logged, no exception leaves the
    handler, and the datastore sees nothing but the one insert. *)
Theorem email_failure_never_changes_the_response
    (ts : jsstr) (req : Request) (row : Row) (rows : list Row)
    (mr : MailRun)
    (Hvalid : validateContactForm (body req) = None) :
  let o := mkOracle ts (Returned (Some (row :: rows)) None) mr in
  response (fst (run o req)) = Some (Success (id row) ts)
  /\ snd (run o req) = Val tt
  /\ inserted (fst (run o req)) = [normalized toLowerCase o req]
  /\ logged (fst (run o req)) =
       match first_rejection (settlements mr) with
       | Some reason => [(js "Email error:", reason)]
       | None => []
       end.
Proof.
  intro o. subst o. enter_handler Hvalid.
  each_mail_run mr; run_monad; repeat split; reflexivity.
Qed.

(** C10.  The success response reads the id of the first returned row.
    When a successful insert returns a non-empty row list the read
    succeeds and the answer is 200 with that id; when it reports success
    with an empty or absent row list, the read throws, the catch-all
    boundary answers 500 ServerError and logs the TypeError, although
    the insert was issued and both mails were handed to the relay. *)
Theorem first_row_id_and_the_catch_all
    (ts : jsstr) (req : Request) (mr : MailRun)
    (Hvalid : validateContactForm (body req) = None) :
  (forall row rows,
      let o := mkOracle ts (Returned (Some (row :: rows)) None) mr in
      first_row_id (Some (row :: rows)) = ret (id row)
      /\ response (fst (run o req)) = Some (Success (id row) ts))
  /\
  (forall data, data = None \/ data = Some [] ->
      let o := mkOracle ts (Returned data None) mr in
      (exists e, first_row_id data = throw e
                 /\ In (js "Contact form error:", e) (logged (fst (run o req))))
      /\ response (fst (run o req)) = Some ServerError
      /\ inserted (fst (run o req)) = [normalized toLowerCase o req]
      /\ map fst (mails (fst (run o req))) = [AdminMail; UserMail]).
Proof.
  split.
  - intros row rows o. subst o. split; [reflexivity |].
    enter_handler Hvalid. each_mail_run mr; run_monad; reflexivity.
  - intros data Hd o. subst o. enter_handler Hvalid.
    destruct Hd as [-> | ->]; each_mail_run mr; run_monad;
      (split; [eexists; split; [reflexivity | cbv; tauto] |]);
      repeat split; reflexivity.
Qed.

Lemma strict_eq_true (a : Field) (lit : jsstr) :
  strict_eq a lit = true <-> a = Some lit.
Proof.
  unfold strict_eq. destruct a as [s |]; [| split; discriminate].
  destruct (list_eq_dec N.eq_dec s lit) as [-> | Hne]; split; auto.
  - discriminate.
  - intro H. injection H as ->. contradiction.
Qed.

Lemma rejection_is_fixed (b : Body) (r : Response) :
  validateContactForm b = Some r -> In r fixed_error_responses.
Proof.
  rewrite validate_first_violation. unfold first_violation.
  destruct (find (violates b) check_order) as [v |] eqn:F; [| discriminate].
  intro H. injection H as <-. apply find_some in F as [Hin _].
  unfold fixed_error_responses. apply in_or_app. left.
  apply in_map. assumption.
Qed.

(** C7, as the code has it.  For every persistence failure on a valid
    submission, the raw datastore message is in the response, as the
    debug field, exactly when NODE_ENV is 'development'; in every other
    mode (production is one) every error response of the submission
    path is one of the fixed-text responses, with no debug field and
    nothing of the exception in it. *)
Theorem debug_field_only_in_development
    (o : Oracle) (req : Request) (data : option (list Row)) (error : Exn)
    (Hvalid : validateContactForm (body req) = None)
    (Hinsert : insert_outcome o = Returned data (Some error)) :
  (debug_of (fst (run o req)) = Some (exn_message error) <->
   strict_eq (NODE_ENV env) (js "development") = true)
  /\
  (strict_eq (NODE_ENV env) (js "development") = false ->
   forall (o' : Oracle) (req' : Request) (r : Response),
     response (fst (run o' req')) = Some r ->
     status r <> 200%N -> In r fixed_error_responses)
  /\
  (strict_eq (NODE_ENV env) (js "production") = true ->
   strict_eq (NODE_ENV env) (js "development") = false).
Proof.
  split; [| split].
  - enter_handler Hvalid. rewrite Hinsert. run_monad. unfold debug_of.
    cbn [sent]. destruct (strict_eq (NODE_ENV env) (js "development"));
      split; auto; discriminate.
  - intros Hdev o' req' r.
    destruct (validateContactForm (body req')) as [rej |] eqn:Hv.
    + unfold run_contact, contact_route. rewrite Hv. run_monad.
      unfold response. cbn [sent statusCode option_map].
      intros H _. injection H as <-. destruct rej as [st j].
      apply (rejection_is_fixed _ _ Hv).
    + enter_handler Hv.
      destruct o' as [ts [[[| row rows] |] [err |] | ex] mr];
        each_mail_run mr; run_monad; rewrite ?Hdev;
        unfold response; cbn [sent statusCode option_map];
        intros H Hs; injection H as <-; cbn [status] in Hs;
        try (exfalso; apply Hs; reflexivity);
        unfold fixed_error_responses; apply in_or_app; right;
        cbn [In]; unfold DatabaseError, ServerError; auto.
  - rewrite strict_eq_true. intros ->. reflexivity.
Qed.

Lemma is_space_SP : is_space SP = true.
Proof. reflexivity. Qed.

Lemma trimStart_spaces (c : jschar) (k : nat) :
  is_space c = false -> trimStart (repeat SP k ++ [c]) = [c].
Proof.
  intro Hc. induction k as [| k IH]; cbn [repeat app trimStart].
  - rewrite Hc. reflexivity.
  - rewrite is_space_SP. assumption.
Qed.

Lemma trim_padded (c : jschar) (k : nat) :
  is_space c = false -> trim (padded c k) = [c].
Proof.
  intro Hc. unfold trim, padded, trimEnd. cbn [trimStart]. rewrite Hc.
  cbn [rev]. rewrite rev_repeat, trimStart_spaces by assumption.
  reflexivity.
Qed.

Lemma length_padded (c : jschar) (k : nat) : length (padded c k) = S k.
Proof. unfold padded. cbn [length]. rewrite repeat_length. reflexivity. Qed.

(** C9.  The validator measures the raw strings and the handler trims
    before it stores: a name, subject and message each made of one
    non-blank code unit followed by spaces up to an accepted length pass
    the validator, and the record handed to the datastore has a name, a
    subject and a message of length 1, below the documented minima 2, 5
    and 10. *)
Theorem bounds_checked_before_trimming
    (o : Oracle) (req : Request) (c1 c2 c3 : jschar) (k1 k2 k3 : nat)
    (e : jsstr)
    (Hc1 : is_space c1 = false) (Hc2 : is_space c2 = false)
    (Hc3 : is_space c3 = false)
    (Hk1 : 1 <= k1 <= 99) (Hk2 : 4 <= k2 <= 199) (Hk3 : 9 <= k3 <= 1999)
    (He : test emailRegex e = true)
    (Hb : body req =
          mkBody (Some (padded c1 k1)) (Some e) (Some (padded c2 k2))
            (Some (padded c3 k3))) :
  validateContactForm (body req) = None
  /\ exists r : ContactMessage,
       inserted (fst (run o req)) = [r]
       /\ name r = [c1] /\ subject r = [c2] /\ message r = [c3]
       /\ length (name r) < 2 /\ length (subject r) < 5
       /\ length (message r) < 10.
Proof.
  assert (Hv : validateContactForm (body req) = None).
  { apply validate_none_iff. rewrite Hb.
    cbn [b_name b_email b_subject b_message str].
    rewrite !length_padded. repeat split; try assumption; lia. }
  split; [assumption |].
  exists (normalized toLowerCase o req). split; [apply insert_issued; assumption |].
  unfold normalized. rewrite Hb.
  cbn [b_name b_email b_subject b_message str name subject message].
  rewrite !trim_padded by assumption. cbn [length]. repeat split; lia.
Qed.

(** C8, as the code has it.  Both sends are issued, one after the other,
    before either is awaited, whatever their outcomes.  The awaiting
    handler resumes when both have succeeded, or as soon as one fails:
    the combined promise fails with the reason of the first dispatch to
    fail, a single reason and not an aggregate; when the dispatch that
    settles first succeeds, both have settled on return, and when it
    fails, the other is still in flight on return. *)
Theorem notifier_returns_at_first_failure
    (ts : jsstr) (req : Request) (data : option (list Row)) (mr : MailRun)
    (Hvalid : validateContactForm (body req) = None) :
  let st := promise_all [AdminMail; UserMail] (settlements mr) in
  let o := mkOracle ts (Returned data None) mr in
  (exists admin user rest,
      calls (fst (run o req)) =
        DbInsert (normalized toLowerCase o req) :: CreateTransport
        :: SendMail AdminMail admin :: SendMail UserMail user
        :: map (fun ds => Settled (fst ds) (snd ds)) (seen st) ++ rest
      /\ forall d s, ~ In (Settled d s) rest)
  /\ outcome st =
       Some match first_rejection (settlements mr) with
            | Some reason => AllRejected reason
            | None => AllFulfilled
            end
  /\ (outcome st = Some AllFulfilled <->
      admin_result mr = Fulfilled /\ user_result mr = Fulfilled)
  /\ (first_result mr = Fulfilled ->
      seen st = settlements mr /\ pending st = [])
  /\ (forall reason, first_result mr = Rejected reason ->
      outcome st = Some (AllRejected reason)
      /\ seen st = [(first mr, Rejected reason)]
      /\ pending st = [other (first mr)]).
Proof.
  intros st o. subst st o. split.
  - enter_handler Hvalid.
    destruct data as [[| row rows] |]; each_mail_run mr; run_monad;
      do 3 eexists; (split; [reflexivity |]);
      intros ? ?; cbn [In]; intuition discriminate.
  - each_mail_run mr; cbv; repeat split; auto; try discriminate;
      try (intros [? ?]; discriminate);
      try (intros ? H; injection H as <-; repeat split; reflexivity);
      match goal with
      | H : Rejected _ = Rejected _ |- _ => injection H as <-; reflexivity
      end.
Qed.

End SubmissionFacts.

(* ================================================================== *)
(** ** The health check *)

(** When the probe throws, the health check answers 500 with the
    message of the exception, in every mode. *)
Lemma health_error_carries_exception_message
    (env : Env) (ts : jsstr) (uptime : N) (e : Exn) :
  response (fst (health_handler env ts uptime (ProbeThrew e) initial_world)) =
  Some (mkResponse 500
          (HealthErrorBody (js "ERROR") ts uptime (js "ERROR")
             (exn_message e))).
Proof. reflexivity. Qed.

(** An unset NODE_ENV is reported as 'development' by the health check,
    while the debug field of the submission path stays off. *)
Lemma unset_mode_reported_as_development (ts : jsstr) (uptime : N) :
  let env := mkEnv None None None None None in
  sent (fst (health_handler env ts uptime (ProbeReturned None) initial_world))
  = Some (HealthBody (js "OK") ts uptime (js "CONNECTED") (js "development")
            (js "NOT_SET") (js "NOT_SET"))
  /\ strict_eq (NODE_ENV env) (js "development") = false.
Proof. split; reflexivity. Qed.

(* ================================================================== *)
(** ** Instances *)

Import Sample.

Lemma valid_submission_is_persisted_and_acknowledged_witness :
  validateContactForm (body req0) = None
  /\ insert_outcome (mkOracle ts0 stored both_delivered) = stored
  /\ response
       (fst (run_contact ascii_toLowerCase prod
               (mkOracle ts0 stored both_delivered) req0))
     = Some (Success (id row0) ts0).
Proof.
  split; [reflexivity | split; [reflexivity |]].
  refine (proj1 (proj2
    (valid_submission_is_persisted_and_acknowledged ascii_toLowerCase prod
       (mkOracle ts0 stored both_delivered) req0 row0 [] _ _))); reflexivity.
Defined.

Lemma persistence_error_stops_before_mail_witness :
  validateContactForm (body req0) = None
  /\ mails
       (fst (run_contact ascii_toLowerCase prod
               (mkOracle ts0 failed both_delivered) req0)) = [].
Proof.
  split; [reflexivity |].
  refine (proj1 (proj2 (proj2
    (persistence_error_stops_before_mail ascii_toLowerCase prod
       (mkOracle ts0 failed both_delivered) req0 None db_down _ _)))); reflexivity.
Defined.

Lemma email_failure_never_changes_the_response_witness :
  validateContactForm (body req0) = None
  /\ response
       (fst (run_contact ascii_toLowerCase prod
               (mkOracle ts0 stored both_fail) req0))
     = Some (Success (id row0) ts0).
Proof.
  split; [reflexivity |].
  refine (proj1
    (email_failure_never_changes_the_response ascii_toLowerCase prod ts0
       req0 row0 [] both_fail _)); reflexivity.
Defined.

Lemma email_format_check_is_the_pattern_witness :
  all_present body0
  /\ (spec_email_pattern (str (b_email body0)) ->
      test emailRegex (str (b_email body0)) = true /\
      validateContactForm body0 <> Some (rejection_response InvalidEmailFormat)).
Proof.
  split; [repeat split; reflexivity |].
  refine (proj2 (email_format_check_is_the_pattern body0 _)).
  repeat split; reflexivity.
Defined.

Lemma debug_field_only_in_development_witness :
  validateContactForm (body req0) = None
  /\ debug_of
       (fst (run_contact ascii_toLowerCase dev
               (mkOracle ts0 failed both_delivered) req0))
     = Some (js "connection refused").
Proof.
  split; [reflexivity |].
  refine (proj2 (proj1
    (debug_field_only_in_development ascii_toLowerCase dev
       (mkOracle ts0 failed both_delivered) req0 None db_down _ _)) _); reflexivity.
Defined.

Lemma notifier_returns_at_first_failure_witness :
  validateContactForm (body req0) = None
  /\ outcome (promise_all [AdminMail; UserMail] (settlements admin_fails_first))
     = Some (AllRejected smtp_down).
Proof.
  split; [reflexivity |].
  refine (proj1 (proj2
    (notifier_returns_at_first_failure ascii_toLowerCase prod ts0 req0
       (Some [row0]) admin_fails_first _))); reflexivity.
Defined.

Lemma bounds_checked_before_trimming_witness :
  validateContactForm padded_body = None
  /\ exists r : ContactMessage,
       inserted
         (fst (run_contact ascii_toLowerCase prod
                 (mkOracle ts0 stored both_delivered)
                 (mkRequest padded_body None None))) = [r]
       /\ name r = [97%N] /\ subject r = [98%N] /\ message r = [99%N]
       /\ length (name r) < 2 /\ length (subject r) < 5
       /\ length (message r) < 10.
Proof.
  apply (bounds_checked_before_trimming ascii_toLowerCase prod
           (mkOracle ts0 stored both_delivered)
           (mkRequest padded_body None None) 97%N 98%N 99%N 1 4 9
           (js "a@b.co"));
    try reflexivity; lia.
Defined.

Lemma first_row_id_and_the_catch_all_witness :
  validateContactForm (body req0) = None
  /\ response
       (fst (run_contact ascii_toLowerCase prod
               (mkOracle ts0 stored_silently both_delivered) req0))
     = Some ServerError.
Proof.
  split; [reflexivity |].
  refine (proj1 (proj2
    (proj2
       (first_row_id_and_the_catch_all ascii_toLowerCase prod ts0 req0
          both_delivered _) (Some []) _)));
    [reflexivity | right; reflexivity].
Defined.

(** C7 as stated fails: with NODE_ENV 'test', a non-production mode, a
    persistence failure is answered without the debug field. *)
Lemma debug_field_absent_in_test_mode :
  ~ (forall (toLowerCase : jsstr -> jsstr) (env : Env) (o : Oracle)
            (req : Request) (data : option (list Row)) (error : Exn),
        validateContactForm (body req) = None ->
        insert_outcome o = Returned data (Some error) ->
        (debug_of (fst (run_contact toLowerCase env o req))
         = Some (exn_message error)
         <-> strict_eq (NODE_ENV env) (js "production") = false)).
Proof.
  intro H.
  specialize (H ascii_toLowerCase testing
                (mkOracle ts0 failed both_delivered) req0 None db_down
                eq_refl eq_refl).
  destruct H as [_ H]. specialize (H eq_refl). discriminate H.
Qed.

(** C8 as stated fails: when the admin mail fails first, the handler
    resumes, logs and answers while the auto-reply is still in flight. *)
Lemma handler_resumes_with_a_dispatch_in_flight :
  ~ (forall mr : MailRun,
        pending (promise_all [AdminMail; UserMail] (settlements mr)) = [])
  /\ pending (promise_all [AdminMail; UserMail] (settlements admin_fails_first))
     = [UserMail]
  /\ (let w := fst (run_contact ascii_toLowerCase prod
                      (mkOracle ts0 stored admin_fails_first) req0) in
      response w = Some (Success (id row0) ts0)
      /\ logged w = [(js "Email error:", smtp_down)]
      /\ ~ In (Settled UserMail Fulfilled) (calls w)).
Proof.
  split; [| split; [reflexivity |]].
  - intro H. specialize (H admin_fails_first). discriminate H.
  - cbv zeta. repeat split; try reflexivity.
    vm_compute. intuition discriminate.
Qed.

(* ================================================================== *)
(** ** Runs of the model *)

Example validate_ok : validateContactForm body0 = None.
Proof. reflexivity. Qed.

Example validate_missing :
  validateContactForm (mkBody (Some (js "Ada")) None (Some (js "Hello there"))
                         (Some (js "A message of some length.")))
  = Some (rejection_response MissingField).
Proof. reflexivity. Qed.

Example validate_bad_email :
  map (fun e => test emailRegex (js e))
    ["ada@example.org"; "ada@example"; "ada@@example.org"; "a da@example.org";
     "@example.org"; "ada@.org"; "ada@example."; "a@b..c"]%string
  = [true; false; false; false; false; false; false; true].
Proof. reflexivity. Qed.

Example name_boundaries :
  map (fun k =>
         validateContactForm
           (mkBody (Some (repeat 97%N k)) (b_email body0) (b_subject body0)
              (b_message body0)))
    [1; 2; 100; 101]
  = [Some (rejection_response (InvalidLength FName)); None; None;
     Some (rejection_response (InvalidLength FName))].
Proof. vm_compute. reflexivity. Qed.

Example subject_boundaries :
  map (fun k =>
         validateContactForm
           (mkBody (b_name body0) (b_email body0) (Some (repeat 97%N k))
              (b_message body0)))
    [4; 5; 200; 201]
  = [Some (rejection_response (InvalidLength FSubject)); None; None;
     Some (rejection_response (InvalidLength FSubject))].
Proof. vm_compute. reflexivity. Qed.

Example message_boundaries :
  map (fun k =>
         validateContactForm
           (mkBody (b_name body0) (b_email body0) (b_subject body0)
              (Some (repeat 97%N k))))
    [9; 10; 2000; 2001]
  = [Some (rejection_response (InvalidLength FMessage)); None; None;
     Some (rejection_response (InvalidLength FMessage))].
Proof. vm_compute. reflexivity. Qed.

Example trim_runs :
  trim (js "  Ada Lovelace  ") = js "Ada Lovelace"
  /\ trim (js "   ") = [] /\ trim (9 :: 160 :: js "x" ++ [8232; 10])%N = js "x".
Proof. repeat split; reflexivity. Qed.

Example stored_record :
  inserted
    (fst (run_contact ascii_toLowerCase prod
            (mkOracle ts0 stored both_delivered) req0))
  = [columns row0].
Proof. reflexivity. Qed.

Example blank_name_is_stored_empty :
  let b := mkBody (Some (js "  ")) (b_email body0) (b_subject body0)
             (b_message body0) in
  validateContactForm b = None
  /\ map name
       (inserted
          (fst (run_contact ascii_toLowerCase prod
                  (mkOracle ts0 stored both_delivered)
                  (mkRequest b None None)))) = [[]].
Proof. split; reflexivity. Qed.

Example earlier_check_wins :
  validateContactForm
    (mkBody (Some (js "A")) (Some (js "not-an-email")) (Some (js "Hi"))
       (Some (js "short")))
  = Some (rejection_response InvalidEmailFormat)
  /\ validateContactForm
       (mkBody (Some (js "A")) (b_email body0) (Some (js "Hi"))
          (Some (js "short")))
     = Some (rejection_response (InvalidLength FName))
  /\ validateContactForm
       (mkBody (b_name body0) (b_email body0) (Some (js "Hi"))
          (Some (js "short")))
     = Some (rejection_response (InvalidLength FSubject)).
Proof. repeat split; reflexivity. Qed.

Example calls_when_admin_mail_fails_first :
  map (fun e =>
         match e with
         | DbInsert _ => js "insert"
         | ConsoleError l _ => l
         | CreateTransport => js "createTransport"
         | SendMail AdminMail _ => js "sendMail admin"
         | SendMail UserMail _ => js "sendMail user"
         | Settled AdminMail _ => js "admin settled"
         | Settled UserMail _ => js "user settled"
         end)
    (calls (fst (run_contact ascii_toLowerCase prod
                   (mkOracle ts0 stored admin_fails_first) req0)))
  = [js "insert"; js "createTransport"; js "sendMail admin";
     js "sendMail user"; js "admin settled"; js "Email error:"].
Proof. reflexivity. Qed.

(* ================================================================== *)
(** ** The submission route, case by case *)

Section RouteFacts.

Variable toLowerCase : jsstr -> jsstr.
Variable env : Env.

Local Abbreviation run := (run_contact toLowerCase env).

Lemma rejection_status (b : Body) (r : Response) :
  validateContactForm b = Some r -> status r = 400%N.
Proof.
  rewrite validate_first_violation.
  destruct (first_violation b) as [v |]; [| discriminate].
  intro H. injection H as <-. reflexivity.
Qed.

Lemma route_rejects (o : Oracle) (req : Request) (r : Response) :
  validateContactForm (body req) = Some r ->
  run o req = (mkWorld [] (status r) (Some (json r)), Val tt).
Proof.
  intro H. unfold run_contact, contact_route. rewrite H. reflexivity.
Qed.

(** The answer of the handler, by the outcome of the insert. *)
Lemma handler_response (o : Oracle) (req : Request) :
  validateContactForm (body req) = None ->
  response (fst (run o req)) =
    Some match insert_outcome o with
         | InsertThrew _ => ServerError
         | Returned _ (Some error) =>
             DatabaseError
               (if strict_eq (NODE_ENV env) (js "development")
                then Some (exn_message error) else None)
         | Returned (Some (row :: _)) None => Success (id row) (now o)
         | Returned _ None => ServerError
         end
  /\ snd (run o req) = Val tt.
Proof.
  intro Hv. enter_handler Hv.
  destruct o as [ts [[[| row rows] |] [err |] | ex] mr]; each_mail_run mr;
    run_monad; split; reflexivity.
Qed.

(** The mails handed to the relay, by the outcome of the insert. *)
Lemma handler_mails (o : Oracle) (req : Request) :
  validateContactForm (body req) = None ->
  mails (fst (run o req)) =
    match insert_outcome o with
    | Returned _ None => both_mails env o req
    | _ => []
    end.
Proof.
  intro Hv. enter_handler Hv. unfold both_mails. rewrite Hb.
  cbn [b_name b_email b_subject b_message str].
  destruct o as [ts [[[| row rows] |] [err |] | ex] mr]; each_mail_run mr;
    run_monad; reflexivity.
Qed.

(** X1.  A submission the validator rejects is answered with that
    rejection, status 400, and nothing else happens: no insert, no
    mail, no log line. *)
Theorem rejected_submission_has_no_side_effect
    (o : Oracle) (req : Request) (r : Response)
    (Hrejected : validateContactForm (body req) = Some r) :
  run o req = (mkWorld [] 400 (Some (json r)), Val tt)
  /\ status r = 400%N.
Proof.
  rewrite (route_rejects o req _ Hrejected).
  rewrite (rejection_status _ _ Hrejected). split; reflexivity.
Qed.

(** X2.  A submission in which any of the four fields is absent or
    empty is answered 400 MissingField, whatever the other fields hold,
    and never reaches the datastore. *)
Theorem missing_field_stops_the_request
    (o : Oracle) (req : Request)
    (Hmissing : some_field_missing (body req) = true) :
  response (fst (run o req)) = Some (rejection_response MissingField)
  /\ inserted (fst (run o req)) = []
  /\ calls (fst (run o req)) = [].
Proof.
  assert (Hv : validateContactForm (body req)
               = Some (rejection_response MissingField)).
  { rewrite validate_first_violation. unfold first_violation, check_order.
    cbn [find violates]. unfold some_field_missing in Hmissing.
    rewrite Hmissing. reflexivity. }
  rewrite (route_rejects o req _ Hv). repeat split; reflexivity.
Qed.



(** X5.  Mail is attempted exactly when the submission is valid and the
    insert returned without error (even if it returned no row); then
    the admin mail and the auto-reply are both handed to the relay, in
    that order, built from the fields as submitted: the auto-reply goes
    to the email as typed, not to the lower-cased, trimmed one that was
    stored. *)
Theorem mail_follows_a_successful_insert (o : Oracle) (req : Request) :
  (mails (fst (run o req)) <> [] <->
   validateContactForm (body req) = None
   /\ exists data, insert_outcome o = Returned data None)
  /\ (mails (fst (run o req)) = []
      \/ mails (fst (run o req)) =
           [(AdminMail,
             mkMail (SMTP_FROM env) (ADMIN_EMAIL env)
               (js "New Contact Form Submission: "
                ++ str (b_subject (body req)))
               (AdminHtml (str (b_name (body req))) (str (b_email (body req)))
                  (str (b_subject (body req))) (now o)
                  (js_or (ip req) (remoteAddress req))
                  (str (b_message (body req)))));
            (UserMail,
             mkMail (SMTP_FROM env) (Some (str (b_email (body req))))
               (js "Thank you for contacting HafTech - "
                ++ str (b_subject (body req)))
               (AutoReplyHtml (str (b_name (body req)))
                  (str (b_subject (body req))) (now o)))]).
Proof.
  destruct (validateContactForm (body req)) as [rej |] eqn:Hv.
  - rewrite (route_rejects o req _ Hv). unfold mails. cbn [fst calls flat_map].
    split; [| left; reflexivity]. split.
    + intro H. contradiction H. reflexivity.
    + intros [H _]. discriminate H.
  - rewrite (handler_mails o req Hv).
    destruct (insert_outcome o) as [data [err |] | ex].
    + split; [| left; reflexivity]. split.
      * intro H. contradiction H. reflexivity.
      * intros [_ (d & H)]. discriminate H.
    + split; [| right; reflexivity]. split.
      * intros _. split; [reflexivity |]. eauto.
      * intros _. unfold both_mails. discriminate.
    + split; [| left; reflexivity]. split.
      * intro H. contradiction H. reflexivity.
      * intros [_ (d & H)]. discriminate H.
Qed.

(** X6.  When the datastore client throws instead of returning an
    error, the catch-all boundary answers 500 ServerError with fixed
    text in every mode (no debug field, also in development), logs the
    exception, and no mail is attempted. *)
Theorem insert_exception_is_a_server_error
    (o : Oracle) (req : Request) (e : Exn)
    (Hvalid : validateContactForm (body req) = None)
    (Hthrew : insert_outcome o = InsertThrew e) :
  response (fst (run o req)) = Some ServerError
  /\ debug_of (fst (run o req)) = None
  /\ mails (fst (run o req)) = []
  /\ logged (fst (run o req)) = [(js "Contact form error:", e)].
Proof.
  split; [| split; [| split]].
  - destruct (handler_response o req Hvalid) as [Hr _].
    rewrite Hr, Hthrew. reflexivity.
  - enter_handler Hvalid. rewrite Hthrew. reflexivity.
  - rewrite (handler_mails o req Hvalid), Hthrew. reflexivity.
  - enter_handler Hvalid. rewrite Hthrew. reflexivity.
Qed.

Lemma debug_of_response (w : World) (r : Response) :
  response w = Some r ->
  debug_of w = match json r with
               | ErrorBody _ _ debug => debug
               | _ => None
               end.
Proof.
  unfold response, debug_of. destruct (sent w) as [j |]; [| discriminate].
  cbn [option_map]. intro H. injection H as <-. reflexivity.
Qed.

(** X7.  The debug field is present in a response exactly when the
    submission is valid, NODE_ENV is 'development' and the insert
    returned an error; it then holds that error's message.  No other
    response (validation, ServerError, success) carries one. *)
Theorem debug_field_characterised
    (o : Oracle) (req : Request) (m : jsstr) :
  debug_of (fst (run o req)) = Some m <->
  validateContactForm (body req) = None
  /\ NODE_ENV env = Some (js "development")
  /\ exists data error,
       insert_outcome o = Returned data (Some error)
       /\ exn_message error = m.
Proof.
  destruct (validateContactForm (body req)) as [rej |] eqn:Hv.
  - rewrite (route_rejects o req _ Hv). unfold debug_of. cbn [fst sent].
    assert (Hj : exists v, rej = rejection_response v).
    { rewrite validate_first_violation in Hv.
      destruct (first_violation (body req)) as [v |]; [| discriminate].
      injection Hv as <-. eauto. }
    destruct Hj as (v & ->). split.
    + destruct v as [| | []]; discriminate.
    + intros [H _]. discriminate H.
  - destruct (handler_response o req Hv) as [Hr _].
    rewrite (debug_of_response _ _ Hr). rewrite <- strict_eq_true.
    destruct (insert_outcome o) as [[[| row rows] |] [err |] | ex];
      cbn [json Success ServerError DatabaseError];
      try (split; [discriminate
                  | intros (_ & _ & d & e' & H & _); discriminate H]);
      destruct (strict_eq (NODE_ENV env) (js "development"));
      (split;
       [ intro H; try discriminate H; injection H as <-;
         repeat split; eauto
       | intros (_ & Hd & d & e' & H & <-); try discriminate Hd;
         injection H as _ <-; reflexivity ]).
Qed.

End RouteFacts.

(* ================================================================== *)
(** ** Trimming *)

Lemma trimStart_spec (s : jsstr) :
  exists p : jsstr,
    s = p ++ trimStart s /\ forallb is_space p = true
    /\ match trimStart s with
       | [] => True
       | c :: _ => is_space c = false
       end.
Proof.
  induction s as [| c s IH]; cbn [trimStart].
  - exists []. repeat split.
  - destruct (is_space c) eqn:Ec.
    + destruct IH as (p & Hs & Hp & Hh). exists (c :: p). repeat split.
      * cbn [app]. f_equal. assumption.
      * cbn [forallb]. rewrite Ec, Hp. reflexivity.
      * assumption.
    + exists []. repeat split. assumption.
Qed.

Lemma trimEnd_spec (t : jsstr) :
  exists q : jsstr,
    t = trimEnd t ++ q /\ forallb is_space q = true
    /\ (trimEnd t = []
        \/ exists w d, trimEnd t = w ++ [d] /\ is_space d = false).
Proof.
  unfold trimEnd. destruct (trimStart_spec (rev t)) as (p & Hs & Hp & Hh).
  exists (rev p). repeat split.
  - rewrite <- rev_app_distr, <- Hs, rev_involutive. reflexivity.
  - apply forallb_forall. intros x Hx. apply in_rev in Hx.
    rewrite forallb_forall in Hp. auto.
  - destruct (trimStart (rev t)) as [| d v]; [left; reflexivity |].
    right. exists (rev v), d. split; [reflexivity | assumption].
Qed.

Lemma trim_is_clean (s : jsstr) : clean (trim s) = true.
Proof.
  unfold trim.
  destruct (trimStart_spec s) as (_ & _ & _ & Hh).
  destruct (trimEnd_spec (trimStart s)) as (q & Hu & _ & [E | (w & d & E & Hd)]).
  - rewrite E. reflexivity.
  - destruct (trimEnd (trimStart s)) as [| c t] eqn:Et.
    + destruct w; discriminate E.
    + rewrite Hu in Hh. cbn [app] in Hh.
      unfold clean. rewrite Hh, E, last_last, Hd. reflexivity.
Qed.

Lemma clean_trim (s : jsstr) : clean s = true -> trim s = s.
Proof.
  destruct s as [| c t]; [reflexivity |].
  unfold clean. rewrite andb_true_iff, !negb_true_iff. intros [Hc Hl].
  unfold trim. cbn [trimStart]. rewrite Hc. unfold trimEnd.
  destruct (@exists_last _ (c :: t)) as (w & d & E); [discriminate |].
  rewrite E in Hl |- *. rewrite last_last in Hl.
  rewrite rev_app_distr. cbn [rev app trimStart]. rewrite Hl.
  cbn [rev]. rewrite rev_involutive. reflexivity.
Qed.

Lemma trimStart_length (s : jsstr) : length (trimStart s) <= length s.
Proof.
  induction s as [| c s IH]; cbn [trimStart length]; [lia |].
  destruct (is_space c); cbn [length]; lia.
Qed.

Lemma trim_length (s : jsstr) : length (trim s) <= length s.
Proof.
  unfold trim, trimEnd. rewrite length_rev.
  pose proof (trimStart_length (rev (trimStart s))) as H1.
  rewrite length_rev in H1. pose proof (trimStart_length s). lia.
Qed.

Lemma char_count_pair (c d : jschar) (rest : jsstr) :
  char_count (c :: d :: rest) =
  if is_high_surrogate c && is_low_surrogate d
  then S (char_count rest) else S (char_count (d :: rest)).
Proof. reflexivity. Qed.

Lemma char_count_le_bounded (n : nat) :
  forall s : jsstr, length s <= n -> char_count s <= length s.
Proof.
  induction n as [| n IH]; intros s Hn.
  - destruct s; [cbn; lia | cbn in Hn; lia].
  - destruct s as [| c [| d rest]]; [cbn; lia | cbn; lia |].
    rewrite char_count_pair. cbn [length] in Hn |- *.
    destruct (is_high_surrogate c && is_low_surrogate d).
    + pose proof (IH rest ltac:(lia)). lia.
    + pose proof (IH (d :: rest) ltac:(cbn [length]; lia)) as H.
      cbn [length] in H. lia.
Qed.

Lemma char_count_le (s : jsstr) : char_count s <= length s.
Proof. apply (char_count_le_bounded (length s)). lia. Qed.

Lemma char_count_plain (s : jsstr) :
  forallb (fun c => negb (is_high_surrogate c)) s = true ->
  char_count s = length s.
Proof.
  induction s as [| c s IH]; [reflexivity |].
  cbn [forallb]. rewrite andb_true_iff, negb_true_iff. intros [Hc Hs].
  destruct s as [| d rest]; [reflexivity |].
  rewrite char_count_pair, Hc. cbn [andb length]. f_equal.
  apply IH. assumption.
Qed.

(* ================================================================== *)
(** ** What is stored *)

Lemma long_email_accepted (k : nat) :
  1 <= k -> test emailRegex (long_email k) = true.
Proof.
  intro Hk. apply test_matches, emailRegex_shape.
  exists (repeat 97%N k), (js "b"), (js "co"). repeat split; try discriminate.
  - destruct k; [lia | discriminate].
  - apply forallb_forall. intros x Hx. apply repeat_spec in Hx. subst x.
    reflexivity.
Qed.

Lemma long_email_clean (k : nat) : 1 <= k -> clean (long_email k) = true.
Proof.
  intro Hk. destruct k as [| k]; [lia |]. unfold long_email, clean.
  cbn [repeat app].
  change (js "@b.co") with (js "@b.c" ++ [111%N]).
  rewrite app_assoc, app_comm_cons, last_last. reflexivity.
Qed.

Lemma long_email_char_count (k : nat) : char_count (long_email k) = k + 5.
Proof.
  rewrite char_count_plain.
  - unfold long_email. rewrite length_app, repeat_length. reflexivity.
  - unfold long_email. rewrite forallb_app. apply andb_true_iff. split.
    + apply forallb_forall. intros x Hx. apply repeat_spec in Hx. subst x.
      reflexivity.
    + reflexivity.
Qed.

Section StoredFacts.

Variable toLowerCase : jsstr -> jsstr.
Variable env : Env.

Local Abbreviation run := (run_contact toLowerCase env).

(** X8.  Whatever a valid submission holds, each of the four text
    columns of the record handed to the datastore neither starts nor
    ends with whitespace, and name, subject and message are no longer
    than submitted. *)
Theorem stored_text_is_trimmed
    (o : Oracle) (req : Request)
    (Hvalid : validateContactForm (body req) = None) :
  exists r : ContactMessage,
    inserted (fst (run o req)) = [r]
    /\ clean (name r) = true /\ clean (email r) = true
    /\ clean (subject r) = true /\ clean (message r) = true
    /\ length (name r) <= length (str (b_name (body req)))
    /\ length (subject r) <= length (str (b_subject (body req)))
    /\ length (message r) <= length (str (b_message (body req))).
Proof.
  exists (normalized toLowerCase o req).
  split; [apply insert_issued; assumption |].
  unfold normalized. cbn [name email subject message].
  repeat split; try apply trim_is_clean; apply trim_length.
Qed.

(** X9.  A name, subject and message that neither start nor end with
    whitespace are stored exactly as submitted (whitespace inside them
    is kept). *)
Theorem clean_text_is_stored_verbatim
    (o : Oracle) (req : Request)
    (Hvalid : validateContactForm (body req) = None)
    (Hname : clean (str (b_name (body req))) = true)
    (Hsubject : clean (str (b_subject (body req))) = true)
    (Hmessage : clean (str (b_message (body req))) = true) :
  exists r : ContactMessage,
    inserted (fst (run o req)) = [r]
    /\ name r = str (b_name (body req))
    /\ subject r = str (b_subject (body req))
    /\ message r = str (b_message (body req)).
Proof.
  exists (normalized toLowerCase o req).
  split; [apply insert_issued; assumption |].
  unfold normalized. cbn [name subject message].
  rewrite !clean_trim by assumption. repeat split.
Qed.

(** X10.  The name and the subject of every record the handler inserts
    fit their columns, VARCHAR(100) and VARCHAR(200), and so does the
    status, VARCHAR(20): the record fits the table exactly when its
    email fits VARCHAR(255). *)
Theorem stored_name_and_subject_fit_their_columns
    (o : Oracle) (req : Request)
    (Hvalid : validateContactForm (body req) = None) :
  exists r : ContactMessage,
    inserted (fst (run o req)) = [r]
    /\ char_count (name r) <= NAME_WIDTH
    /\ char_count (subject r) <= SUBJECT_WIDTH
    /\ char_count (msg_status r) <= STATUS_WIDTH
    /\ fits_columns r = (char_count (email r) <=? EMAIL_WIDTH).
Proof.
  exists (normalized toLowerCase o req).
  split; [apply insert_issued; assumption |].
  apply validate_none_iff in Hvalid as (_ & Hn & Hs & _).
  assert (Cn : char_count (name (normalized toLowerCase o req)) <= NAME_WIDTH).
  { unfold normalized, NAME_WIDTH. cbn [name].
    pose proof (char_count_le (trim (str (b_name (body req))))).
    pose proof (trim_length (str (b_name (body req)))). lia. }
  assert (Cs : char_count (subject (normalized toLowerCase o req))
               <= SUBJECT_WIDTH).
  { unfold normalized, SUBJECT_WIDTH. cbn [subject].
    pose proof (char_count_le (trim (str (b_subject (body req))))).
    pose proof (trim_length (str (b_subject (body req)))). lia. }
  assert (Ct : char_count (msg_status (normalized toLowerCase o req))
               <= STATUS_WIDTH).
  { unfold STATUS_WIDTH. cbn. lia. }
  repeat split; try assumption.
  unfold fits_columns.
  apply Nat.leb_le in Cn, Cs, Ct. rewrite Cn, Cs, Ct.
  cbn [andb]. rewrite !andb_true_r. reflexivity.
Qed.

(** X11.  The validator puts no upper bound on the email: an address
    with a local part of any length [k >= 1] is accepted, and where
    lower-casing leaves it unchanged it is handed to the datastore in
    full, [k + 5] characters, which past [k = 250] no longer fits the
    VARCHAR(255) column. *)
Theorem email_length_is_unbounded
    (o : Oracle) (req : Request) (k : nat)
    (Hk : 1 <= k)
    (Hemail : b_email (body req) = Some (long_email k))
    (Hname : 2 <= length (str (b_name (body req))) <= 100)
    (Hsubject : 5 <= length (str (b_subject (body req))) <= 200)
    (Hmessage : 10 <= length (str (b_message (body req))) <= 2000)
    (Hlower : toLowerCase (long_email k) = long_email k) :
  validateContactForm (body req) = None
  /\ exists r : ContactMessage,
       inserted (fst (run o req)) = [r]
       /\ email r = long_email k
       /\ char_count (email r) = k + 5
       /\ (250 < k -> fits_columns r = false).
Proof.
  assert (Hv : validateContactForm (body req) = None).
  { apply validate_none_iff. rewrite Hemail. cbn [str].
    repeat split; try lia. apply long_email_accepted; assumption. }
  split; [assumption |].
  exists (normalized toLowerCase o req).
  split; [apply insert_issued; assumption |].
  assert (He : email (normalized toLowerCase o req) = long_email k).
  { unfold normalized. cbn [email]. rewrite Hemail. cbn [str].
    rewrite Hlower. apply clean_trim, long_email_clean. assumption. }
  split; [assumption |]. split.
  - rewrite He. apply long_email_char_count.
  - intro Hbig. unfold fits_columns. rewrite He, long_email_char_count.
    assert (E : (k + 5 <=? EMAIL_WIDTH) = false).
    { apply Nat.leb_gt. unfold EMAIL_WIDTH. lia. }
    rewrite E. rewrite andb_false_r. reflexivity.
Qed.

End StoredFacts.

(* ================================================================== *)
(** ** The health check, the listing and the allowed origins *)

(** X12.  The health check answers 500 only when the probe throws.  When
    the probe returns, also with an error, the answer is HTTP 200 with
    status 'OK'; the error shows only as database 'ERROR', it is neither
    logged nor included, and any two errors give the same answer. *)
Theorem health_is_ok_unless_the_probe_throws
    (env : Env) (ts : jsstr) (uptime : N) (probe : ProbeOutcome) :
  let w := fst (health_handler env ts uptime probe initial_world) in
  (statusCode w = 500%N <-> exists e, probe = ProbeThrew e)
  /\ (forall error,
        probe = ProbeReturned error ->
        calls w = []
        /\ exists db mode url key,
             response w
             = Some (mkResponse 200
                       (HealthBody (js "OK") ts uptime db mode url key))
             /\ (db = js "ERROR" <-> error <> None)
             /\ (db = js "CONNECTED" <-> error = None))
  /\ (forall e1 e2,
        health_handler env ts uptime (ProbeReturned (Some e1)) initial_world
        = health_handler env ts uptime (ProbeReturned (Some e2)) initial_world).
Proof.
  cbv zeta. split; [| split].
  - destruct probe as [err | e]; cbn; split.
    + discriminate.
    + intros (e & H). discriminate H.
    + eauto.
    + reflexivity.
  - intros error ->. split; [reflexivity |].
    destruct error as [err |]; do 4 eexists;
      (split; [reflexivity |]); split; split;
      try discriminate; try reflexivity; try congruence;
      intro H; vm_compute in H; discriminate H.
  - reflexivity.
Qed.


(** X14.  The listing answers with the rows exactly as the datastore
    returned them, in the same order, and their number, when the select
    returned a list and no error.  In every other case (an error, an
    exception, no list) it logs the error and answers 500 with fixed
    text: the datastore message is never in the answer, in any mode. *)
Theorem listing_returns_rows_or_fixed_error (o : SelectOutcome) :
  let w := fst (admin_messages_handler o initial_world) in
  let answer := snd (admin_messages_handler o initial_world) in
  (forall rows,
      o = Selected (Some rows) None ->
      answer = Val (ListBody rows (length rows))
      /\ statusCode w = 200%N /\ calls w = [])
  /\ ((forall rows, o <> Selected (Some rows) None) ->
      answer = Val (ListError (js "Server error")
                      (js "Failed to fetch messages."))
      /\ statusCode w = 500%N
      /\ exists e, calls w = [ConsoleError (js "Admin messages error:") e])
  /\ (forall data error,
        o = Selected data (Some error) ->
        calls w = [ConsoleError (js "Admin messages error:") error]).
Proof.
  cbv zeta. split; [| split].
  - intros rows ->. repeat split.
  - intro H. destruct o as [[rows |] [err |] | e];
      try (exfalso; apply (H rows); reflexivity);
      repeat split; eexists; reflexivity.
  - intros data error ->. reflexivity.
Qed.

Lemma matches_RStr (l s : jsstr) : matches (RStr l) s <-> s = l.
Proof.
  revert s. induction l as [| c l IH]; intro s; cbn [RStr].
  - split.
    + intro H. inversion H. reflexivity.
    + intros ->. constructor.
  - split.
    + intro H. apply matches_seq_inv in H as (s1 & s2 & -> & H1 & H2).
      apply matches_char_inv in H1. apply IH in H2. subst. reflexivity.
    + intros ->. change (c :: l) with ([c] ++ l). constructor.
      * constructor. apply N.eqb_refl.
      * apply IH. reflexivity.
Qed.

Lemma test_at_end_spec (r : regex) (s : jsstr) :
  test_at_end r s = true <->
  exists pre suf, s = pre ++ suf /\ test r suf = true.
Proof.
  induction s as [| c s IH].
  - cbn [test_at_end]. rewrite orb_false_r. split.
    + intro H. exists [], []. split; [reflexivity | assumption].
    + intros (pre & suf & E & H). symmetry in E.
      apply app_eq_nil in E as [_ ->]. assumption.
  - cbn [test_at_end]. rewrite orb_true_iff, IH. split.
    + intros [H | (pre & suf & -> & H)].
      * exists [], (c :: s). split; [reflexivity | assumption].
      * exists (c :: pre), suf. split; [reflexivity | assumption].
    + intros (pre & suf & E & H). destruct pre as [| x pre].
      * cbn [app] in E. subst suf. left. assumption.
      * cbn [app] in E. injection E as -> ->. right. eauto.
Qed.

Lemma vercel_test (origin : jsstr) :
  test_at_end vercelRegex origin = true <->
  exists pre, origin = pre ++ js ".vercel.app".
Proof.
  rewrite test_at_end_spec. unfold vercelRegex. split.
  - intros (pre & suf & -> & H). apply test_matches, matches_RStr in H.
    subst. eauto.
  - intros (pre & ->). exists pre, (js ".vercel.app"). split; [reflexivity |].
    apply test_matches, matches_RStr. reflexivity.
Qed.

Lemma exact_test (origin s : jsstr) :
  (if list_eq_dec N.eq_dec origin s then true else false) = true <->
  origin = s.
Proof.
  destruct (list_eq_dec N.eq_dec origin s); split; auto; discriminate.
Qed.

(** X15.  In production an origin is allowed exactly when it is the
    configured client URL (or the default one when none is configured),
    the fixed frontend URL, or any string ending in ".vercel.app",
    whatever comes before that ending. *)
Theorem production_allows_every_vercel_origin
    (env : Env) (client_url_prod : Field) (origin : jsstr)
    (Hprod : NODE_ENV env = Some (js "production")) :
  origin_allowed (cors_origin env client_url_prod) origin = true <->
  origin = str (js_or client_url_prod
                  (Some (js "https://your-portfolio.vercel.app")))
  \/ origin = js "https://portfolio-project-frontend.vercel.app"
  \/ exists pre, origin = pre ++ js ".vercel.app".
Proof.
  unfold cors_origin. apply strict_eq_true in Hprod. rewrite Hprod.
  unfold origin_allowed. cbn [existsb].
  rewrite orb_false_r, !orb_true_iff, !exact_test, vercel_test.
  reflexivity.
Qed.

(** X16.  In every other mode, also with NODE_ENV unset, only the two
    localhost origins are allowed: the deployed frontends are refused. *)
Theorem other_modes_allow_localhost_only
    (env : Env) (client_url_prod : Field) (origin : jsstr)
    (Hother : NODE_ENV env <> Some (js "production")) :
  (origin_allowed (cors_origin env client_url_prod) origin = true <->
   origin = js "http://localhost:5173" \/ origin = js "http://localhost:3000")
  /\ origin_allowed (cors_origin env client_url_prod)
       (js "https://portfolio-project-frontend.vercel.app") = false.
Proof.
  unfold cors_origin.
  destruct (strict_eq (NODE_ENV env) (js "production")) eqn:E.
  - apply strict_eq_true in E. contradiction.
  - split.
    + unfold origin_allowed. cbn [existsb].
      rewrite orb_false_r, !orb_true_iff, !exact_test. reflexivity.
    + reflexivity.
Qed.

(* ================================================================== *)
(** ** More instances *)

Import Sample2.

Lemma rejected_submission_has_no_side_effect_witness :
  validateContactForm bad_email_body
  = Some (rejection_response InvalidEmailFormat)
  /\ calls (fst (run_contact ascii_toLowerCase prod
                   (mkOracle ts0 stored both_delivered)
                   (mkRequest bad_email_body None None))) = [].
Proof.
  split; [reflexivity |].
  rewrite (proj1
    (rejected_submission_has_no_side_effect ascii_toLowerCase prod
       (mkOracle ts0 stored both_delivered)
       (mkRequest bad_email_body None None)
       (rejection_response InvalidEmailFormat) eq_refl)).
  reflexivity.
Defined.

Lemma missing_field_stops_the_request_witness :
  some_field_missing no_subject_body = true
  /\ response (fst (run_contact ascii_toLowerCase prod
                      (mkOracle ts0 stored both_delivered)
                      (mkRequest no_subject_body None None)))
     = Some (rejection_response MissingField).
Proof.
  split; [reflexivity |].
  refine (proj1
    (missing_field_stops_the_request ascii_toLowerCase prod
       (mkOracle ts0 stored both_delivered)
       (mkRequest no_subject_body None None) _)); reflexivity.
Defined.

Lemma insert_exception_is_a_server_error_witness :
  validateContactForm (body req0) = None
  /\ response (fst (run_contact ascii_toLowerCase dev
                      (mkOracle ts0 client_throws both_delivered) req0))
     = Some ServerError.
Proof.
  split; [reflexivity |].
  refine (proj1
    (insert_exception_is_a_server_error ascii_toLowerCase dev
       (mkOracle ts0 client_throws both_delivered) req0 db_down _ _));
    reflexivity.
Defined.

Lemma stored_text_is_trimmed_witness :
  validateContactForm padded_body = None
  /\ exists r : ContactMessage,
       inserted (fst (run_contact ascii_toLowerCase prod
                        (mkOracle ts0 stored both_delivered)
                        (mkRequest padded_body None None))) = [r]
       /\ clean (name r) = true.
Proof.
  split; [reflexivity |].
  destruct (stored_text_is_trimmed ascii_toLowerCase prod
              (mkOracle ts0 stored both_delivered)
              (mkRequest padded_body None None) eq_refl)
    as (r & Hr & Hn & _).
  exists r. split; assumption.
Defined.

Lemma clean_text_is_stored_verbatim_witness :
  validateContactForm (body req0) = None
  /\ exists r : ContactMessage,
       inserted (fst (run_contact ascii_toLowerCase prod
                        (mkOracle ts0 stored both_delivered) req0)) = [r]
       /\ name r = js "Ada".
Proof.
  split; [reflexivity |].
  destruct (clean_text_is_stored_verbatim ascii_toLowerCase prod
              (mkOracle ts0 stored both_delivered) req0
              eq_refl eq_refl eq_refl eq_refl)
    as (r & Hr & Hn & _).
  exists r. split; assumption.
Defined.

Lemma stored_name_and_subject_fit_their_columns_witness :
  validateContactForm (body req0) = None
  /\ exists r : ContactMessage,
       inserted (fst (run_contact ascii_toLowerCase prod
                        (mkOracle ts0 stored both_delivered) req0)) = [r]
       /\ char_count (name r) <= NAME_WIDTH.
Proof.
  split; [reflexivity |].
  destruct (stored_name_and_subject_fit_their_columns ascii_toLowerCase prod
              (mkOracle ts0 stored both_delivered) req0 eq_refl)
    as (r & Hr & Hn & _).
  exists r. split; assumption.
Defined.

Lemma email_length_is_unbounded_witness :
  validateContactForm long_body = None
  /\ exists r : ContactMessage,
       inserted (fst (run_contact ascii_toLowerCase prod
                        (mkOracle ts0 stored both_delivered)
                        (mkRequest long_body None None))) = [r]
       /\ char_count (email r) = 256
       /\ fits_columns r = false.
Proof.
  assert (H251 : 1 <= 251) by lia.
  assert (Hn : 2 <= length (str (b_name long_body)) <= 100)
    by (vm_compute; lia).
  assert (Hs : 5 <= length (str (b_subject long_body)) <= 200)
    by (vm_compute; lia).
  assert (Hm : 10 <= length (str (b_message long_body)) <= 2000)
    by (vm_compute; lia).
  destruct (email_length_is_unbounded ascii_toLowerCase prod
              (mkOracle ts0 stored both_delivered)
              (mkRequest long_body None None) 251 H251 eq_refl Hn Hs Hm
              eq_refl)
    as (Hv & r & Hr & _ & Hc & Hf).
  split; [exact Hv |]. exists r. repeat split; [exact Hr | exact Hc |].
  apply Hf. lia.
Defined.


Lemma production_allows_every_vercel_origin_witness :
  NODE_ENV prod = Some (js "production")
  /\ origin_allowed (cors_origin prod None) (js "http://evil.vercel.app")
     = true.
Proof.
  split; [reflexivity |].
  apply (proj2
    (production_allows_every_vercel_origin prod None
       (js "http://evil.vercel.app") eq_refl)).
  right. right. exists (js "http://evil"). reflexivity.
Defined.

Lemma other_modes_allow_localhost_only_witness :
  NODE_ENV testing <> Some (js "production")
  /\ origin_allowed (cors_origin testing None)
       (js "https://portfolio-project-frontend.vercel.app") = false.
Proof.
  assert (H : NODE_ENV testing <> Some (js "production"))
    by (vm_compute; discriminate).
  split; [exact H |].
  exact (proj2
    (other_modes_allow_localhost_only testing None
       (js "https://portfolio-project-frontend.vercel.app") H)).
Defined.
